(** * DocuFlowAI: the text-extraction orchestration of [utils/ocr_extractor.py]

    A shallow embedding of the module's functions and the properties of
    its timeout primitive, configuration race, page / document / fallback
    pipelines, image preprocessing and text cleaning.

    Conventions.
    - A Python [str] is a list of Unicode code points ([N]).
    - Calls into the collaborators (pdfplumber, pdf2image, pytesseract,
      PIL) are black boxes: each call either never returns or finishes
      after some number of clock ticks (seconds), with a value or an
      exception.
    - Code that waits, raises or calls a collaborator lives in the monad
      [M]: a state (clock, log of collaborator calls, the work submitted to
      the innermost open executor) goes in, and either nothing comes out
      (the caller is blocked for ever) or a new state with a value or a
      raised exception. *)

From Stdlib Require Import ZArith NArith PeanoNat Bool List String Ascii Lia.
From Stdlib Require Import DecimalString.
Import ListNotations.

Set Implicit Arguments.

(* ================================================================== *)
(** ** Python strings *)
(* ================================================================== *)

Module Str.

Definition char := N.
Definition str := list char.

(** A literal of the source (ASCII). *)
Definition lit (s : string) : str := map N_of_ascii (list_ascii_of_string s).

Definition space : char := 32%N.
Definition newline : char := 10%N.

Definition between (lo hi c : N) : bool := (N.leb lo c) && (N.leb c hi).

(** The characters [str.strip()] removes and the pattern [\s] matches
    (CPython's [Py_UNICODE_ISSPACE]). *)
Definition isspace (c : char) : bool :=
  between 9 13 c || between 28 32 c || N.eqb c 133 || N.eqb c 160
  || N.eqb c 5760 || between 8192 8202 c || N.eqb c 8232 || N.eqb c 8233
  || N.eqb c 8239 || N.eqb c 8287 || N.eqb c 12288.

Fixpoint lstrip (s : str) : str :=
  match s with
  | [] => []
  | c :: rest => if isspace c then lstrip rest else s
  end.

Fixpoint rstrip (s : str) : str :=
  match s with
  | [] => []
  | c :: rest =>
      match rstrip rest with
      | [] => if isspace c then [] else [c]
      | r => c :: r
      end
  end.

(** [s.strip()] *)
Definition strip (s : str) : str := rstrip (lstrip s).

(** [not s.strip()] *)
Definition blank (s : str) : bool :=
  match strip s with [] => true | _ => false end.

(** [len(s)] *)
Definition len (s : str) : nat := List.length s.

Fixpoint startswith (s p : str) : bool :=
  match p, s with
  | [], _ => true
  | _ :: _, [] => false
  | a :: p', b :: s' => N.eqb a b && startswith s' p'
  end.

(** [needle in hay] *)
Fixpoint contains (needle hay : str) : bool :=
  startswith hay needle ||
  match hay with
  | [] => false
  | _ :: rest => contains needle rest
  end.

(** [sep.join(parts)] *)
Fixpoint join (sep : str) (parts : list str) : str :=
  match parts with
  | [] => []
  | [p] => p
  | p :: rest => p ++ sep ++ join sep rest
  end.

(** [str(n)] for an [int], as an f-string prints it. *)
Definition of_int (n : Z) : str := lit (NilZero.string_of_int (Z.to_int n)).

End Str.
Import Str.

(* ================================================================== *)
(** ** [clean_text] *)
(* ================================================================== *)

Section CleanText.

(** [str.lower] is Python's built-in, with the Unicode case tables and
    the context rule for the final sigma; it is a parameter here. *)
Variable lower : str -> str.

Definition is_az (c : char) : bool := between 97 122 c.
Definition is_09 (c : char) : bool := between 48 57 c.

(** [re.sub(r'[^a-z0-9\s]', '', s)] *)
Definition drop_other (s : str) : str :=
  filter (fun c => is_az c || is_09 c || isspace c) s.

(** [re.sub(r'\s+', ' ', s)]: every maximal run of white space becomes one
    space; [in_run] tells that the character before was white space. *)
Fixpoint squeeze (in_run : bool) (s : str) : str :=
  match s with
  | [] => []
  | c :: rest =>
      if isspace c
      then (if in_run then squeeze true rest else space :: squeeze true rest)
      else c :: squeeze false rest
  end.

Definition clean_text (text : str) : str :=
  match text with
  | [] => []
  | _ =>
      let cleaned := lower text in
      let cleaned := drop_other cleaned in
      let cleaned := squeeze false cleaned in
      strip cleaned
  end.

End CleanText.

(** What [clean_text] promises of its result. *)
Definition clean_char (c : char) : bool := is_az c || is_09 c || N.eqb c space.

Fixpoint no_double_space (s : str) : bool :=
  match s with
  | a :: (b :: _) as rest => negb (N.eqb a space && N.eqb b space) && no_double_space rest
  | _ => true
  end.

Definition first_char (s : str) : option char := hd_error s.

Fixpoint last_char (s : str) : option char :=
  match s with
  | [] => None
  | [c] => Some c
  | _ :: rest => last_char rest
  end.

(** The lower-casing of plain ASCII, used to run [clean_text]. *)
Definition ascii_lower (s : str) : str :=
  map (fun c => if between 65 90 c then (c + 32)%N else c) s.

(* ================================================================== *)
(** ** [preprocess_image] *)
(* ================================================================== *)

Module PIL.

(** The modes the module produces, and all others by name. *)
Inductive mode :=
| Mode1                      (* '1': one byte a pixel, 0 or 255 *)
| ModeL                      (* 'L': one byte a pixel *)
| ModeOther (name : string).    (* 'RGB', 'RGBA', 'P', 'CMYK', ... *)

Record Image := mkImage {
  mode_of : mode;
  width : Z;
  height : Z;
  data : list Z              (* the bytes of the raster *)
}.

(** The operations of the imaging library whose arithmetic is not the
    module's own: the size [(int(width * ratio), int(height * ratio))]
    computed in floating point, the LANCZOS resampling, and the luminance
    of the colour modes. *)
Record ops := mkOps {
  scaled_size : Z -> Z -> Z * Z;
  resize_lanczos : Image -> Z * Z -> Image;
  luminance : string -> Image -> list Z
}.

(** [image.convert("L")] *)
Definition convert_L (o : ops) (im : Image) : Image :=
  match mode_of im with
  | Mode1 => mkImage ModeL (width im) (height im)
               (map (fun b => if Z.eqb b 0 then 0%Z else 255%Z) (data im))
  | ModeL => im
  | ModeOther name => mkImage ModeL (width im) (height im) (luminance o name im)
  end.

(** [image.point(lut, '1')] on an 'L' image. *)
Definition point_1 (lut : Z -> Z) (im : Image) : Image :=
  mkImage Mode1 (width im) (height im) (map lut (data im)).

End PIL.
Import PIL.

Definition preprocess_image (o : ops) (image : Image) : Image :=
  let image :=
    if (Z.ltb 2000 (width image) || Z.ltb 2000 (height image))%bool
    then resize_lanczos o image (scaled_size o (width image) (height image))
    else image in
  let image := convert_L o image in
  point_1 (fun x => if Z.ltb x 200 then 0%Z else 255%Z) image.

(** An image that is already binarized: mode '1' with bytes 0 and 255. *)
Definition binarized (im : Image) : Prop :=
  mode_of im = Mode1 /\ Forall (fun b => b = 0%Z \/ b = 255%Z) (data im).

(** An image within the size threshold. *)
Definition small (im : Image) : Prop :=
  (width im <= 2000)%Z /\ (height im <= 2000)%Z.

(** Stand-ins to run [preprocess_image] with: the resize caps the two
    sides and keeps the raster, the luminance is the raster as stored. *)
Definition plain_ops : ops :=
  mkOps (fun w h => (Z.min w 2000, Z.min h 2000))
        (fun im wh => mkImage (mode_of im) (fst wh) (snd wh) (data im))
        (fun _ im => data im).

(* ================================================================== *)
(** ** Exceptions, black-box calls and the monad of waiting code *)
(* ================================================================== *)

(** The exception classes the module tells apart; all derive from
    [Exception]. *)
Inductive exn :=
| FuturesTimeoutError              (* concurrent.futures.TimeoutError *)
| TimeoutError (msg : str)         (* the module's own class TimeoutError *)
| Exception (msg : str)            (* Exception(msg), as the module raises it *)
| OtherError (msg : str).          (* any other class, raised by a collaborator *)

(** [str(e)] *)
Definition str_of_exn (e : exn) : str :=
  match e with
  | FuturesTimeoutError => []
  | TimeoutError msg | Exception msg | OtherError msg => msg
  end.

Inductive result (A : Type) :=
| Ok (a : A)
| Raise (e : exn).
Arguments Ok {A} a.
Arguments Raise {A} e.

(** What one call of a collaborator does: it never returns, or it takes
    [d] ticks and returns a value or raises. *)
Inductive behaviour (A : Type) :=
| Hangs
| Finishes (d : nat) (r : result A).
Arguments Hangs {A}.
Arguments Finishes {A} d r.

(** The collaborator calls, as logged. *)
Inductive call :=
| PdfplumberOpen
| ExtractText
| ConvertFromPath (first_page last_page dpi : Z)
| ImageToString (config : str)
| ImageOpen.

Record state := mkState {
  now : nat;                       (* the clock, in seconds *)
  calls : list call;               (* collaborator calls started so far *)
  pending : list (option nat)      (* finishing times of the work submitted
                                      to the innermost open executor; None
                                      for work that never finishes *)
}.

(** [None]: the caller never gets control back. *)
Definition M (A : Type) := state -> option (state * result A).

Definition ret {A} (a : A) : M A := fun s => Some (s, Ok a).

Definition raise {A} (e : exn) : M A := fun s => Some (s, Raise e).

Definition bind {A B} (m : M A) (k : A -> M B) : M B :=
  fun s =>
    match m s with
    | None => None
    | Some (s', Ok a) => k a s'
    | Some (s', Raise e) => Some (s', Raise e)
    end.

(** [try: m  except Exception as e: handler e]; a handler for one class
    re-raises the others. *)
Definition try_except {A} (m : M A) (handler : exn -> M A) : M A :=
  fun s =>
    match m s with
    | None => None
    | Some (s', Ok a) => Some (s', Ok a)
    | Some (s', Raise e) => handler e s'
    end.

Declare Scope monad_scope.
Delimit Scope monad_scope with monad.
Notation "x <- m ;; k" := (bind m (fun x => k))
  (at level 61, m at next level, right associativity) : monad_scope.
Open Scope monad_scope.

(** A list comprehension whose element expression waits. *)
Fixpoint for_each {X Y} (f : X -> M Y) (xs : list X) : M (list Y) :=
  match xs with
  | [] => ret []
  | x :: rest => y <- f x ;; ys <- for_each f rest ;; ret (y :: ys)
  end.

(** A direct call of a collaborator: the caller waits for it. *)
Definition blocking {A} (c : call) (b : behaviour A) : M A :=
  fun s =>
    match b with
    | Hangs => None
    | Finishes d r => Some (mkState (now s + d) (calls s ++ [c]) (pending s), r)
    end.

(** [executor.submit(func, ...).result(timeout=seconds)]: the work starts
    on a worker thread of the open executor; the caller waits for it at
    most [seconds] (work that takes exactly [seconds] counts as in time).
    The work itself is not interrupted: its finishing time stays with the
    executor. *)
Definition submit_result {A} (seconds : nat) (c : call) (b : behaviour A) : M A :=
  fun s =>
    let started finish t := mkState t (calls s ++ [c]) (finish :: pending s) in
    match b with
    | Hangs => Some (started None (now s + seconds), Raise FuturesTimeoutError)
    | Finishes d r =>
        if d <=? seconds
        then Some (started (Some (now s + d)) (now s + d), r)
        else Some (started (Some (now s + d)) (now s + seconds),
                   Raise FuturesTimeoutError)
    end.

(** The moment all the work in [ws] has finished, from [t] on. *)
Fixpoint all_finished (ws : list (option nat)) (t : nat) : option nat :=
  match ws with
  | [] => Some t
  | None :: _ => None
  | Some f :: rest => all_finished rest (Nat.max t f)
  end.

(** [with concurrent.futures.ThreadPoolExecutor() as executor: body]:
    leaving the block, normally or by an exception, is
    [executor.shutdown(wait=True)], which joins the worker threads. *)
Definition with_executor {B} (body : M B) : M B :=
  fun s =>
    match body (mkState (now s) (calls s) []) with
    | None => None
    | Some (s1, r) =>
        match all_finished (pending s1) (now s1) with
        | None => None
        | Some t => Some (mkState t (calls s1) (pending s), r)
        end
    end.

(** The function [run] that [timeout] yields. *)
Definition runner := forall A : Type, call -> behaviour A -> M A.

Definition seconds_str (seconds : nat) : str := of_int (Z.of_nat seconds).

(** [f"{task_name} timed out after {seconds} seconds"] *)
Definition timed_out_message (task_name : str) (seconds : nat) : str :=
  task_name ++ lit " timed out after " ++ seconds_str seconds ++ lit " seconds".

Definition run (seconds : nat) (task_name : str) : runner :=
  fun A c b =>
    try_except (submit_result seconds c b)
      (fun e =>
         match e with
         | FuturesTimeoutError =>
             raise (TimeoutError (timed_out_message task_name seconds))
         | _ => raise e
         end).

(** [with timeout(seconds, task_name) as run: body run] *)
Definition timeout {B} (seconds : nat) (task_name : str) (body : runner -> M B) : M B :=
  with_executor (body (run seconds task_name)).

(** [list(executor.map(f, xs))] waits for the threads in input order, from
    moment [t] on: it stops at the first exception, and never returns when
    it reaches a thread that never finishes. *)
Fixpoint wait_in_order {Y} (threads : list (option (state * result Y))) (t : nat)
  : option (nat * result (list Y)) :=
  match threads with
  | [] => Some (t, Ok [])
  | None :: _ => None
  | Some (s', Raise e) :: _ => Some (Nat.max t (now s'), Raise e)
  | Some (s', Ok y) :: rest =>
      match wait_in_order rest (Nat.max t (now s')) with
      | None => None
      | Some (t', Ok ys) => Some (t', Ok (y :: ys))
      | Some (t', Raise e) => Some (t', Raise e)
      end
  end.

Definition finish_time {Y} (thread : option (state * result Y)) : option nat :=
  match thread with
  | None => None
  | Some (s', _) => Some (now s')
  end.

Definition calls_of {Y} (thread : option (state * result Y)) : list call :=
  match thread with
  | None => []
  | Some (s', _) => calls s'
  end.

(** [list(executor.map(f, xs))] inside an executor block: every [f x] is
    submitted at once and runs on its own worker thread from the same
    moment (the pool has at least five workers, the module maps over three
    pages or four configurations); the results come in input order. *)
Definition executor_map {X Y} (f : X -> M Y) (xs : list X) : M (list Y) :=
  fun s =>
    let threads := map (fun x => f x (mkState (now s) [] [])) xs in
    match wait_in_order threads (now s) with
    | None => None
    | Some (t, r) =>
        Some (mkState t
                      (calls s ++ List.concat (map calls_of threads))
                      (map finish_time threads ++ pending s),
              r)
    end.

(** [max(xs, key=key)]: the first of the greatest; [None] for the
    [ValueError] of an empty sequence. *)
Fixpoint max_from {A} (key : A -> nat) (best : A) (xs : list A) : A :=
  match xs with
  | [] => best
  | x :: rest => if key best <? key x then max_from key x rest
                 else max_from key best rest
  end.

Definition py_max {A} (key : A -> nat) (xs : list A) : option A :=
  match xs with
  | [] => None
  | x :: rest => Some (max_from key x rest)
  end.

(** [enumerate(xs, start)] *)
Fixpoint enumerate {A} (start : Z) (xs : list A) : list (Z * A) :=
  match xs with
  | [] => []
  | x :: rest => (start, x) :: enumerate (start + 1) rest
  end.

(* ================================================================== *)
(** ** The collaborators and the pipelines *)
(* ================================================================== *)

(** What the collaborators do for the document at [file_path]. A page of
    [pdf.pages] is what its [extract_text()] does ([None] for Python's
    [None]). *)
Record collaborators := mkCollaborators {
  pdfplumber_open : behaviour (list (behaviour (option str)));
  convert_from_path : Z -> Z -> Z -> behaviour (list Image);
                                       (* first_page, last_page, dpi *)
  image_to_string : Image -> str -> behaviour str;    (* image, config *)
  Image_open : behaviour Image;
  image_ops : ops
}.

Definition timeout_placeholder : str := lit "[OCR timeout - page skipped]".

Definition page_marker (page_number : Z) : str :=
  lit "--- Page " ++ of_int page_number ++ lit " ---" ++ [newline].

Definition whitelist_config : str :=
  lit "--psm 1 --oem 1 -c tessedit_char_whitelist=ABCDEFGHIJKLMNOPQRSTUVWXYZabcdefghijklmnopqrstuvwxyz0123456789.,!?@#$%^&*()_+-=[]{}|;:,.<>/ ".

Definition fallback_configs : list str :=
  [lit "--psm 4 --oem 1"; lit "--psm 6 --oem 1"; lit "--psm 12 --oem 1";
   lit "--psm 8 --oem 1"].

Definition image_configs : list str :=
  [lit "--psm 1 --oem 1"; lit "--psm 3 --oem 1"; lit "--psm 6 --oem 1";
   lit "--psm 4 --oem 1"].

Definition unable_text : str :=
  lit "--- Page 1 ---" ++ [newline] ++ lit "[Unable to extract text]".

Definition failed_text : str :=
  lit "--- Page 1 ---" ++ [newline]
  ++ lit "[Text extraction failed - please try a different document format]".

Definition fallback_marker : str :=
  lit "--- Page 1 (Fallback Method) ---" ++ [newline].

(** [page.extract_text()], with the empty string for [None]. *)
Definition text_or_empty (t : option str) : str :=
  match t with
  | Some ((_ :: _) as text) => text
  | _ => []
  end.

Section Pipelines.

Variable env : collaborators.

Definition run_ocr_config (image : Image) (config : str) : M str :=
  try_except
    (timeout 10 (lit "OCR config " ++ config)
       (fun run => run _ (ImageToString config) (image_to_string env image config)))
    (fun e =>
       match e with
       | TimeoutError _ => ret []
       | _ => raise e
       end).

Definition process_pdf_page (page_number : Z) (image : Image) : M str :=
  let image := preprocess_image (image_ops env) image in
  try_except
    (text <- timeout 30 (lit "OCR page " ++ of_int page_number)
               (fun run =>
                  text <- run _ (ImageToString whitelist_config)
                            (image_to_string env image whitelist_config) ;;
                  if blank text
                  then run _ (ImageToString (lit "--psm 6 --oem 1"))
                         (image_to_string env image (lit "--psm 6 --oem 1"))
                  else ret text) ;;
     ret (page_marker page_number ++ strip text))
    (fun e =>
       match e with
       | TimeoutError _ => ret (page_marker page_number ++ timeout_placeholder)
       | _ => raise e
       end).

Definition extract_from_pdf_fallback : M str :=
  try_except
    (images <- timeout 90 (lit "PDF fallback conversion")
                 (fun run => run _ (ConvertFromPath 1 1 100)
                               (convert_from_path env 1 1 100)) ;;
     match images with
     | [] => raise (Exception (lit "Could not convert PDF to image"))
     | image0 :: _ =>
         let image := preprocess_image (image_ops env) image0 in
         let configs := fallback_configs in
         results <- with_executor
                      (executor_map (fun cfg => run_ocr_config image cfg) configs) ;;
         match py_max (fun t => len (strip t)) results with
         | None => raise (OtherError (lit "max() arg is an empty sequence"))
         | Some best_text =>
             if blank best_text then ret unable_text
             else ret (fallback_marker ++ strip best_text)
         end
     end)
    (fun _ => ret failed_text).

Definition extract_from_image : M str :=
  try_except
    (image <- timeout 30 (lit "Image open")
                (fun run => run _ ImageOpen (Image_open env)) ;;
     let image := preprocess_image (image_ops env) image in
     let configs := image_configs in
     results <- with_executor
                  (executor_map (fun cfg => run_ocr_config image cfg) configs) ;;
     match py_max (fun t => len (strip t)) results with
     | None => raise (OtherError (lit "max() arg is an empty sequence"))
     | Some best_text =>
         if blank best_text then raise (Exception (lit "No text found in image"))
         else ret (strip best_text)
     end)
    (fun e =>
       match e with
       | TimeoutError _ =>
           raise (Exception (lit "Image processing timed out: " ++ str_of_exn e))
       | _ =>
           raise (Exception (lit "Failed to extract text from image: " ++ str_of_exn e))
       end).

(** The first [try] of [extract_from_pdf]: [Some text] when it returns the
    embedded text, [None] when control goes on to the rasterizer. *)
Definition embedded_text_attempt : M (option str) :=
  try_except
    (pages <- blocking PdfplumberOpen (pdfplumber_open env) ;;
     texts <- for_each
                (fun page =>
                   t <- blocking ExtractText page ;;
                   ret (text_or_empty t))
                (firstn 3 pages) ;;
     let embedded_text := join [newline] texts in
     if blank embedded_text then ret None else ret (Some embedded_text))
    (fun _ => ret None).

(** Lines 80 to 95: rasterize, recognize the pages, fall back. *)
Definition ocr_pages : M str :=
  images <- timeout 60 (lit "PDF conversion")
              (fun run => run _ (ConvertFromPath 1 3 150)
                            (convert_from_path env 1 3 150)) ;;
  results <- with_executor
               (executor_map (fun p => process_pdf_page (fst p) (snd p))
                  (enumerate 1 images)) ;;
  let extracted_text := join [newline] results in
  if blank extracted_text || contains timeout_placeholder extracted_text
  then extract_from_pdf_fallback
  else ret (strip extracted_text).

Definition extract_from_pdf : M str :=
  try_except
    (embedded <- embedded_text_attempt ;;
     match embedded with
     | Some embedded_text => ret embedded_text
     | None => ocr_pages
     end)
    (fun e =>
       match e with
       | TimeoutError _ =>
           raise (Exception (lit "PDF processing timed out: " ++ str_of_exn e))
       | _ =>
           raise (Exception (lit "Failed to extract text from PDF: " ++ str_of_exn e))
       end).

End Pipelines.

(* ================================================================== *)
(** ** The DOCX extractor and the dispatcher *)
(* ================================================================== *)

(** What the file system and docx2txt do for [file_path]. The extension
    is [os.path.splitext(file_path)[1].lower()], computed by the standard
    library; writing the debug copy is [os.makedirs], [open] and
    [f.write]. *)
Record file_system := mkFileSystem {
  path_exists : bool;                        (* os.path.exists(file_path) *)
  extension : str;
  docx2txt_process : behaviour str;          (* docx2txt.process(file_path) *)
  write_debug_text : str -> behaviour unit   (* logs/debug_extracted_text.txt *)
}.

(** [a == b] on strings. *)
Fixpoint eqb_str (a b : str) : bool :=
  match a, b with
  | [], [] => true
  | x :: a', y :: b' => N.eqb x y && eqb_str a' b'
  | _, _ => false
  end.

(** A direct call that the log of recognition calls does not record. *)
Definition direct {A} (b : behaviour A) : M A :=
  fun s =>
    match b with
    | Hangs => None
    | Finishes d r => Some (mkState (now s + d) (calls s) (pending s), r)
    end.

Section Dispatch.

Variable env : collaborators.
Variable fs : file_system.

Definition extract_from_docx : M str :=
  try_except
    (text <- direct (docx2txt_process fs) ;;
     if blank text then raise (Exception (lit "No text found in DOCX file"))
     else ret (strip text))
    (fun e =>
       raise (Exception (lit "Failed to extract text from DOCX: " ++ str_of_exn e))).

(** [FileNotFoundError] and [ValueError] are [OtherError] here. *)
Definition extract_text (file_path : str) : M str :=
  if negb (path_exists fs)
  then raise (OtherError (lit "File not found: " ++ file_path))
  else
    let ext := extension fs in
    try_except
      (text <- (if eqb_str ext (lit ".pdf") then extract_from_pdf env
                else if existsb (eqb_str ext) [lit ".jpg"; lit ".jpeg"; lit ".png"]
                then extract_from_image env
                else if eqb_str ext (lit ".docx") then extract_from_docx
                else raise (OtherError (lit "Unsupported file format: " ++ ext))) ;;
       _ <- try_except (direct (write_debug_text fs text)) (fun _ => ret tt) ;;
       ret text)
      (fun e => raise (Exception (lit "Text extraction failed: " ++ str_of_exn e))).

End Dispatch.

(* ================================================================== *)
(** ** Documents to run the pipelines on *)
(* ================================================================== *)

Definition start : state := mkState 0 [] [].

Definition page_one : Image := mkImage (ModeOther "RGB") 1 1 [250; 250; 250]%Z.
Definition page_two : Image := mkImage (ModeOther "RGB") 2 1 [10; 20; 30; 250; 250; 250]%Z.

(** A scanned PDF: one page without embedded text for pdfplumber, and the
    given rasterizer and recognizer. *)
Definition scanned_pdf (rasterize : Z -> Z -> Z -> behaviour (list Image))
    (recognize : Image -> str -> behaviour str) : collaborators :=
  mkCollaborators (Finishes 1 (Ok [Finishes 1 (Ok None)]))
    rasterize recognize
    (Finishes 1 (Raise (OtherError (lit "cannot identify image file"))))
    plain_ops.

(** The rasterizer never returns. *)
Definition stuck_rasterizer : collaborators :=
  scanned_pdf (fun _ _ _ => Hangs) (fun _ _ => Finishes 1 (Ok (lit "text"))).

(** The recognizer never returns. *)
Definition stuck_recognizer : collaborators :=
  scanned_pdf (fun _ _ _ => Finishes 2 (Ok [page_one])) (fun _ _ => Hangs).

(** Every call finishes, the recognizer after 1000 seconds. *)
Definition slow_recognizer : collaborators :=
  scanned_pdf (fun _ _ _ => Finishes 2 (Ok [page_one]))
    (fun _ _ => Finishes 1000 (Ok (lit "text"))).

(** Two pages; the recognizer never returns on the second. *)
Definition stuck_second_page : collaborators :=
  scanned_pdf (fun _ _ _ => Finishes 2 (Ok [page_one; page_two]))
    (fun image _ => if Z.eqb (width image) 2 then Hangs
                    else Finishes 2 (Ok (lit "first page"))).

(** Two pages; the recognizer takes 40 seconds on the second. *)
Definition late_second_page : collaborators :=
  scanned_pdf (fun _ _ _ => Finishes 2 (Ok [page_one; page_two]))
    (fun image _ => if Z.eqb (width image) 2 then Finishes 40 (Ok (lit "second page"))
                    else Finishes 2 (Ok (lit "first page"))).

(** An image whose four configurations give two outputs of the same
    trimmed length, a shorter one, and a longer one that comes too late. *)
Definition tied_race : collaborators :=
  mkCollaborators (Finishes 1 (Ok [Finishes 1 (Ok None)]))
    (fun _ _ _ => Finishes 2 (Ok [page_one]))
    (fun _ config =>
       if startswith config (lit "--psm 1 ") then Finishes 5 (Ok (lit " abcd "))
       else if startswith config (lit "--psm 3 ") then Finishes 1 (Ok (lit "wxyz"))
       else if startswith config (lit "--psm 6 ") then Finishes 2 (Ok (lit "ab"))
       else Finishes 12 (Ok (lit "a much longer text")))
    (Finishes 1 (Ok page_one))
    plain_ops.

(** A PDF with selectable text on its first two pages. *)
Definition vector_pdf : collaborators :=
  mkCollaborators
    (Finishes 1 (Ok [Finishes 1 (Ok (Some (lit "Invoice 42 ")));
                     Finishes 2 (Ok None);
                     Finishes 1 (Ok (Some (lit " total: 10")));
                     Hangs]))
    (fun _ _ _ => Hangs)
    (fun _ _ => Hangs)
    Hangs
    plain_ops.

(** The recognizer raises under the configuration [--psm 6 --oem 1] and
    reads text under the others. *)
Definition failing_config : collaborators :=
  mkCollaborators (Finishes 1 (Ok [Finishes 1 (Ok None)]))
    (fun _ _ _ => Finishes 2 (Ok [page_one]))
    (fun _ config =>
       if startswith config (lit "--psm 6 ")
       then Finishes 1 (Raise (OtherError (lit "tesseract failed")))
       else Finishes 1 (Ok (lit "some text")))
    (Finishes 1 (Ok page_one))
    plain_ops.

(** A file of the given extension; docx2txt reads [text] in one second,
    the debug copy is written in one second. *)
Definition a_file (ext text : str) : file_system :=
  mkFileSystem true ext (Finishes 1 (Ok text)) (fun _ => Finishes 1 (Ok tt)).

(** The same file where the debug copy cannot be written. *)
Definition read_only_logs (ext text : str) : file_system :=
  mkFileSystem true ext (Finishes 1 (Ok text))
    (fun _ => Finishes 1 (Raise (OtherError (lit "Permission denied")))).

(** A path with nothing behind it. *)
Definition no_file : file_system :=
  mkFileSystem false (lit ".pdf") Hangs (fun _ => Hangs).

(** The rasterizer takes 70 seconds. *)
Definition late_rasterizer : collaborators :=
  scanned_pdf (fun _ _ _ => Finishes 70 (Ok [page_one]))
    (fun _ _ => Finishes 1 (Ok (lit "text"))).

(** The rasterizer raises. *)
Definition failing_rasterizer : collaborators :=
  scanned_pdf (fun _ _ _ => Finishes 1 (Raise (OtherError (lit "Unable to get page count"))))
    (fun _ _ => Finishes 1 (Ok (lit "text"))).

(** pdfplumber cannot open the document; two pages are read. *)
Definition broken_pdf_structure : collaborators :=
  mkCollaborators (Finishes 1 (Raise (OtherError (lit "No /Root object"))))
    (fun _ _ _ => Finishes 2 (Ok [page_one; page_two]))
    (fun image _ => if Z.eqb (width image) 2 then Finishes 7 (Ok (lit " second page "))
                    else Finishes 9 (Ok (lit "first page")))
    (Finishes 1 (Ok page_one))
    plain_ops.


(** Nothing is read under any configuration. *)
Definition empty_scan : collaborators :=
  mkCollaborators (Finishes 1 (Ok [Finishes 1 (Ok None)]))
    (fun _ _ _ => Finishes 2 (Ok [page_one]))
    (fun _ _ => Finishes 1 (Ok (lit " ")))
    (Finishes 1 (Ok page_one))
    plain_ops.

(** The image cannot be opened in time. *)
Definition slow_image : collaborators :=
  mkCollaborators (Finishes 1 (Ok [])) (fun _ _ _ => Hangs)
    (fun _ _ => Finishes 1 (Ok (lit "text")))
    (Finishes 31 (Ok page_one))
    plain_ops.


(* ================================================================== *)
(** * Properties *)
(* ================================================================== *)

(** ** Strings *)

Lemma isspace_space : isspace space = true.
Proof. reflexivity. Qed.

Lemma clean_space_is_space c :
  clean_char c = true -> isspace c = true -> c = space.
Proof.
  unfold clean_char, is_az, is_09, isspace, between, space.
  intros Hc Hs.
  repeat rewrite ?orb_true_iff, ?andb_true_iff, ?N.leb_le, ?N.eqb_eq in *.
  lia.
Qed.

Lemma clean_is_kept c :
  clean_char c = true -> (is_az c || is_09 c || isspace c)%bool = true.
Proof.
  unfold clean_char. intros H.
  apply orb_true_iff in H as [H | H].
  - now rewrite H.
  - apply N.eqb_eq in H. subst c. rewrite isspace_space. now rewrite orb_true_r.
Qed.

Lemma lstrip_first s c : first_char (lstrip s) = Some c -> isspace c = false.
Proof.
  induction s as [|a s IH]; simpl; [discriminate|].
  destruct (isspace a) eqn:Ha; [exact IH|].
  simpl. now intros [= <-].
Qed.

Lemma lstrip_fixed s :
  (forall c, first_char s = Some c -> isspace c = false) -> lstrip s = s.
Proof.
  destruct s as [|a s]; simpl; [reflexivity|].
  intros H. now rewrite (H a eq_refl).
Qed.

Lemma rstrip_cons_keep a s :
  isspace a = false -> rstrip (a :: s) = a :: rstrip s.
Proof. intros Ha. simpl. rewrite Ha. now destruct (rstrip s). Qed.

Lemma rstrip_first s c :
  first_char (rstrip s) = Some c -> first_char s = Some c.
Proof.
  destruct s as [|a s]; simpl; [discriminate|].
  destruct (rstrip s); [destruct (isspace a)|]; simpl; congruence.
Qed.

Lemma rstrip_last s c : last_char (rstrip s) = Some c -> isspace c = false.
Proof.
  induction s as [|a s IH]; simpl; [discriminate|].
  destruct (rstrip s) as [|b r] eqn:E.
  - destruct (isspace a) eqn:Ha; simpl; [discriminate|]. now intros [= <-].
  - exact IH.
Qed.

Lemma rstrip_idempotent s : rstrip (rstrip s) = rstrip s.
Proof.
  induction s as [|a s IH]; simpl; [reflexivity|].
  destruct (rstrip s) as [|b r] eqn:E.
  - destruct (isspace a) eqn:Ha; simpl; [reflexivity|]. now rewrite Ha.
  - change (rstrip (a :: b :: r) = a :: b :: r).
    simpl. simpl in IH. destruct (rstrip r) as [|b' r'] eqn:E'.
    + destruct (isspace b); [discriminate|]. now inversion IH.
    + now inversion IH.
Qed.

Lemma strip_idempotent s : strip (strip s) = strip s.
Proof.
  unfold strip.
  rewrite (lstrip_fixed (rstrip (lstrip s))).
  - apply rstrip_idempotent.
  - intros c Hc. apply rstrip_first in Hc. now apply lstrip_first in Hc.
Qed.

Lemma strip_first s c : first_char (strip s) = Some c -> isspace c = false.
Proof. intros H. apply rstrip_first in H. now apply lstrip_first in H. Qed.

Lemma strip_last s c : last_char (strip s) = Some c -> isspace c = false.
Proof. apply rstrip_last. Qed.

Lemma forallb_lstrip (P : char -> bool) s :
  forallb P s = true -> forallb P (lstrip s) = true.
Proof.
  induction s as [|a s IH]; simpl; [auto|].
  intros H. apply andb_true_iff in H as [Ha Hs].
  destruct (isspace a); [auto|]. simpl. now rewrite Ha, Hs.
Qed.

Lemma forallb_rstrip (P : char -> bool) s :
  forallb P s = true -> forallb P (rstrip s) = true.
Proof.
  induction s as [|a s IH]; simpl; [auto|].
  intros H. apply andb_true_iff in H as [Ha Hs].
  specialize (IH Hs).
  destruct (rstrip s) as [|b r].
  - destruct (isspace a); simpl; [reflexivity|]. now rewrite Ha.
  - change (forallb P (a :: b :: r)) with (P a && forallb P (b :: r))%bool.
    now rewrite Ha, IH.
Qed.

Lemma no_double_space_tail a s :
  no_double_space (a :: s) = true -> no_double_space s = true.
Proof.
  destruct s as [|b s]; [reflexivity|].
  simpl. intros H. now apply andb_true_iff in H.
Qed.

Lemma no_double_space_lstrip s :
  no_double_space s = true -> no_double_space (lstrip s) = true.
Proof.
  induction s as [|a s IH]; [auto|].
  intros H. simpl lstrip. destruct (isspace a); [|exact H].
  apply IH. now apply no_double_space_tail in H.
Qed.

Lemma no_double_space_rstrip s :
  no_double_space s = true -> no_double_space (rstrip s) = true.
Proof.
  induction s as [|a s IH]; [auto|].
  intros H. pose proof (no_double_space_tail _ _ H) as Hs.
  specialize (IH Hs). simpl rstrip.
  destruct (rstrip s) as [|b r] eqn:E.
  - now destruct (isspace a).
  - destruct s as [|b' s']; [discriminate|].
    assert (b' = b) as ->.
    { assert (Hf : first_char (rstrip (b' :: s')) = Some b) by now rewrite E.
      apply rstrip_first in Hf. simpl in Hf. congruence. }
    simpl in H. apply andb_true_iff in H as [H _].
    change (no_double_space (a :: b :: r))
      with (negb (N.eqb a space && N.eqb b space) && no_double_space (b :: r))%bool.
    now rewrite H, IH.
Qed.

(** ** [clean_text] *)

Lemma drop_other_kept s :
  forallb (fun c => is_az c || is_09 c || isspace c)%bool (drop_other s) = true.
Proof.
  unfold drop_other. apply forallb_forall. intros c Hc.
  now apply filter_In in Hc.
Qed.

Lemma drop_other_fixed s :
  forallb clean_char s = true -> drop_other s = s.
Proof.
  unfold drop_other. induction s as [|a s IH]; simpl; [reflexivity|].
  intros H. apply andb_true_iff in H as [Ha Hs].
  rewrite (clean_is_kept _ Ha). now rewrite IH.
Qed.

Lemma squeeze_clean in_run s :
  forallb (fun c => is_az c || is_09 c || isspace c)%bool s = true ->
  forallb clean_char (squeeze in_run s) = true.
Proof.
  revert in_run. induction s as [|a s IH]; intros in_run; simpl; [reflexivity|].
  intros H. apply andb_true_iff in H as [Ha Hs].
  destruct (isspace a) eqn:Hsp.
  - destruct in_run; simpl; auto.
  - simpl. rewrite orb_false_r in Ha. unfold clean_char at 1.
    rewrite Ha. simpl. auto.
Qed.

Lemma squeeze_in_run_first s c :
  first_char (squeeze true s) = Some c -> isspace c = false.
Proof.
  induction s as [|a s IH]; simpl; [discriminate|].
  destruct (isspace a) eqn:Hsp; [exact IH|].
  simpl. now intros [= <-].
Qed.

Lemma squeeze_no_double_space in_run s :
  no_double_space (squeeze in_run s) = true.
Proof.
  revert in_run. induction s as [|a s IH]; intros in_run; simpl; [reflexivity|].
  destruct (isspace a) eqn:Hsp.
  - destruct in_run; [apply IH|].
    pose proof (squeeze_in_run_first s) as Hf. specialize (IH true).
    destruct (squeeze true s) as [|b r]; [reflexivity|].
    change (negb (N.eqb space space && N.eqb b space) && no_double_space (b :: r) = true)%bool.
    rewrite IH, andb_true_r.
    destruct (N.eqb b space) eqn:Hb; [|reflexivity].
    apply N.eqb_eq in Hb. subst b.
    specialize (Hf space eq_refl). now rewrite isspace_space in Hf.
  - specialize (IH false).
    destruct (squeeze false s) as [|b r]; [reflexivity|].
    change (negb (N.eqb a space && N.eqb b space) && no_double_space (b :: r) = true)%bool.
    rewrite IH, andb_true_r.
    destruct (N.eqb a space) eqn:Hb; [|reflexivity].
    apply N.eqb_eq in Hb. subst a. now rewrite isspace_space in Hsp.
Qed.

Lemma squeeze_fixed in_run s :
  forallb clean_char s = true ->
  no_double_space s = true ->
  (in_run = true -> forall c, first_char s = Some c -> isspace c = false) ->
  squeeze in_run s = s.
Proof.
  revert in_run. induction s as [|a s IH]; intros in_run Hc Hn Hf; simpl; [reflexivity|].
  simpl in Hc. apply andb_true_iff in Hc as [Ha Hs].
  pose proof (no_double_space_tail _ _ Hn) as Hn'.
  destruct (isspace a) eqn:Hsp.
  - pose proof (clean_space_is_space _ Ha Hsp) as ->.
    destruct in_run.
    + specialize (Hf eq_refl space eq_refl). now rewrite isspace_space in Hf.
    + f_equal. apply IH; auto.
      intros _ c Hc. destruct s as [|b s]; [discriminate|].
      simpl in Hc. injection Hc as ->.
      simpl in Hn. apply andb_true_iff in Hn as [Hn _].
      change (N.eqb space space) with true in Hn. simpl in Hn.
      destruct (isspace c) eqn:Hcs; [|reflexivity].
      simpl in Hs. apply andb_true_iff in Hs as [Hcc _].
      rewrite (clean_space_is_space _ Hcc Hcs) in Hn. discriminate.
  - f_equal. apply IH; auto. discriminate.
Qed.

Lemma ascii_lower_fixed s : forallb clean_char s = true -> ascii_lower s = s.
Proof.
  unfold ascii_lower. induction s as [|a s IH]; simpl; [reflexivity|].
  intros H. apply andb_true_iff in H as [Ha Hs].
  rewrite (IH Hs). f_equal.
  destruct (between 65 90 a) eqn:E; [|reflexivity].
  exfalso. revert Ha E.
  unfold clean_char, is_az, is_09, between, space.
  repeat rewrite ?orb_true_iff, ?andb_true_iff, ?N.leb_le, ?N.eqb_eq.
  lia.
Qed.

(** C10. Whatever the text, [clean_text] returns only lowercase ASCII
    letters, digits and spaces, with no white space at either end and no
    two spaces in a row; cleaning a cleaned text changes nothing. The
    lower-casing is Python's; all that is used of it is that it leaves
    such a string alone. *)
Theorem clean_text_normal_and_idempotent :
  forall lower : str -> str,
    (forall s, forallb clean_char s = true -> lower s = s) ->
    forall text,
      forallb clean_char (clean_text lower text) = true
      /\ (forall c, first_char (clean_text lower text) = Some c -> isspace c = false)
      /\ (forall c, last_char (clean_text lower text) = Some c -> isspace c = false)
      /\ no_double_space (clean_text lower text) = true
      /\ clean_text lower (clean_text lower text) = clean_text lower text.
Proof.
  intros lower Hlower text.
  assert (Hnormal : forall t,
             forallb clean_char (clean_text lower t) = true
             /\ no_double_space (clean_text lower t) = true
             /\ strip (clean_text lower t) = clean_text lower t).
  { intros [|a t]; [now split|].
    unfold clean_text. repeat split.
    - apply forallb_rstrip, forallb_lstrip, squeeze_clean, drop_other_kept.
    - apply no_double_space_rstrip, no_double_space_lstrip, squeeze_no_double_space.
    - apply strip_idempotent. }
  destruct (Hnormal text) as (Hc & Hn & Hs).
  repeat split; auto.
  - intros c. rewrite <- Hs. apply strip_first.
  - intros c. rewrite <- Hs. apply strip_last.
  - destruct (clean_text lower text) as [|a r] eqn:E; [reflexivity|].
    unfold clean_text at 1.
    rewrite (Hlower _ Hc), (drop_other_fixed _ Hc).
    rewrite squeeze_fixed; auto. discriminate.
Qed.

Lemma clean_text_normal_and_idempotent_witness :
  clean_text ascii_lower (lit "  Hello,   World!! 42  ") = lit "hello world 42"
  /\ clean_text ascii_lower (clean_text ascii_lower (lit "  Hello,   World!! 42  "))
     = clean_text ascii_lower (lit "  Hello,   World!! 42  ").
Proof.
  split; [reflexivity|].
  apply (clean_text_normal_and_idempotent ascii_lower ascii_lower_fixed
           (lit "  Hello,   World!! 42  ")).
Defined.

(** ** [preprocess_image] *)

Lemma binarize_fixed (bytes : list Z) :
  Forall (fun b => b = 0%Z \/ b = 255%Z) bytes ->
  map (fun x => if Z.ltb x 200 then 0%Z else 255%Z)
      (map (fun b => if Z.eqb b 0 then 0%Z else 255%Z) bytes) = bytes.
Proof.
  induction 1 as [|b bytes [-> | ->] _ IH]; simpl; [reflexivity| |];
    now rewrite IH.
Qed.

Lemma preprocess_small o im :
  small im ->
  preprocess_image o im
  = point_1 (fun x => if Z.ltb x 200 then 0%Z else 255%Z) (convert_L o im).
Proof.
  intros [Hw Hh]. unfold preprocess_image.
  apply Z.leb_le in Hw, Hh. rewrite Z.leb_antisym in Hw, Hh.
  apply negb_true_iff in Hw, Hh. now rewrite Hw, Hh.
Qed.

Lemma preprocess_binarized_small_fixed o im :
  binarized im -> small im -> preprocess_image o im = im.
Proof.
  intros [Hmode Hdata] Hsmall. rewrite (preprocess_small o Hsmall).
  destruct im as [m w h bytes]. simpl in *. subst m.
  unfold convert_L, point_1. simpl. now rewrite binarize_fixed.
Qed.

Lemma preprocess_small_binarized o im :
  small im ->
  binarized (preprocess_image o im) /\ small (preprocess_image o im).
Proof.
  intros Hsmall. rewrite (preprocess_small o Hsmall).
  assert (Hsize : width (convert_L o im) = width im
                  /\ height (convert_L o im) = height im)
    by (unfold convert_L; destruct (mode_of im); now split).
  destruct Hsize as [Hw Hh].
  split; [split|]; simpl.
  - reflexivity.
  - apply Forall_forall. intros b Hb. apply in_map_iff in Hb as (x & <- & _).
    destruct (Z.ltb x 200); auto.
  - unfold small. simpl. now rewrite Hw, Hh.
Qed.

(** C9. On an image within the size threshold a second pass of
    [preprocess_image] gives the same image, byte for byte, as the first;
    when the image is moreover already binarized, the first pass itself
    changes nothing. *)
Theorem preprocess_image_idempotent :
  forall (o : ops) (im : Image),
    small im ->
    preprocess_image o (preprocess_image o im) = preprocess_image o im
    /\ (binarized im -> preprocess_image o im = im).
Proof.
  intros o im Hs. split.
  - destruct (preprocess_small_binarized o Hs) as [Hb' Hs'].
    now apply preprocess_binarized_small_fixed.
  - intros Hb. now apply preprocess_binarized_small_fixed.
Qed.

Lemma preprocess_image_idempotent_witness :
  let im := mkImage Mode1 3 2 [0; 255; 255; 0; 0; 255]%Z in
  small im
  /\ preprocess_image plain_ops (preprocess_image plain_ops im)
     = preprocess_image plain_ops im.
Proof.
  assert (Hs : small (mkImage Mode1 3 2 [0; 255; 255; 0; 0; 255]%Z))
    by (split; simpl; lia).
  split; [exact Hs|].
  exact (proj1 (preprocess_image_idempotent plain_ops Hs)).
Defined.

(** ** The timeout primitive *)

Lemma run_in_time A seconds task_name c d (r : result A) s :
  d <= seconds ->
  run seconds task_name c (Finishes d r) s
  = Some (mkState (now s + d) (calls s ++ [c]) (Some (now s + d) :: pending s),
          match r with
          | Raise FuturesTimeoutError =>
              Raise (TimeoutError (timed_out_message task_name seconds))
          | _ => r
          end).
Proof.
  intros Hd. apply Nat.leb_le in Hd.
  unfold run, try_except, submit_result. rewrite Hd.
  destruct r as [v | []]; reflexivity.
Qed.

Lemma run_late A seconds task_name c d (r : result A) s :
  seconds < d ->
  run seconds task_name c (Finishes d r) s
  = Some (mkState (now s + seconds) (calls s ++ [c]) (Some (now s + d) :: pending s),
          Raise (TimeoutError (timed_out_message task_name seconds))).
Proof.
  intros Hd. apply Nat.leb_gt in Hd.
  unfold run, try_except, submit_result. now rewrite Hd.
Qed.

Lemma run_hangs A seconds task_name c s :
  run seconds task_name c (@Hangs A) s
  = Some (mkState (now s + seconds) (calls s ++ [c]) (None :: pending s),
          Raise (TimeoutError (timed_out_message task_name seconds))).
Proof. reflexivity. Qed.

(** A block [with timeout(...) as run: run(work)] ends when the work
    ends, whatever [run] answered. *)
Lemma timeout_block_finishes A seconds task_name c d (r : result A) s :
  timeout seconds task_name (fun run => run A c (Finishes d r)) s
  = Some (mkState (now s + d) (calls s ++ [c]) (pending s),
          if d <=? seconds
          then match r with
               | Raise FuturesTimeoutError =>
                   Raise (TimeoutError (timed_out_message task_name seconds))
               | _ => r
               end
          else Raise (TimeoutError (timed_out_message task_name seconds))).
Proof.
  unfold timeout, with_executor.
  destruct (Nat.leb_spec d seconds) as [Hd | Hd].
  - rewrite run_in_time by assumption. simpl.
    now rewrite Nat.max_id.
  - rewrite run_late by assumption. simpl.
    now rewrite Nat.max_r by lia.
Qed.

Lemma timeout_block_hangs A seconds task_name c s :
  timeout seconds task_name (fun run => run A c Hangs) s = None.
Proof. reflexivity. Qed.




(** C1 fails on the code. [run] itself raises at the deadline, but the
    block of the context manager is left only when the abandoned work has
    finished: after the work's own duration when that is finite, never
    when the work never returns. So [extract_from_pdf] never returns when
    the rasterizer hangs, and takes 2006 seconds, far beyond the sum of
    the timeouts, when each recognizer call takes 1000. *)
Theorem timeout_block_waits_for_abandoned_work :
  (forall (A : Type) seconds task_name c s,
      timeout seconds task_name (fun run => run A c Hangs) s = None)
  /\ (forall (A : Type) seconds task_name c s late (r : result A),
      timeout seconds task_name
        (fun run => run A c (Finishes (seconds + S late) r)) s
      = Some (mkState (now s + (seconds + S late)) (calls s ++ [c]) (pending s),
              Raise (TimeoutError (timed_out_message task_name seconds))))
  /\ extract_from_pdf stuck_rasterizer start = None
  /\ option_map (fun out => (now (fst out), snd out))
       (extract_from_pdf slow_recognizer start)
     = Some (2006, Ok unable_text).
Proof.
  split; [|split; [|split]].
  - intros. apply timeout_block_hangs.
  - intros. rewrite timeout_block_finishes.
    destruct (Nat.leb_spec (seconds + S late) seconds) as [H | H]; [lia | reflexivity].
  - vm_compute. reflexivity.
  - vm_compute. reflexivity.
Qed.

(** ** One attempt of a race: [run_ocr_config] *)

(** What an attempt whose recognizer call finishes hands to the race. *)
Lemma run_ocr_config_finishes env image config d r s :
  image_to_string env image config = Finishes d r ->
  run_ocr_config env image config s
  = Some (mkState (now s + d) (calls s ++ [ImageToString config]) (pending s),
          if d <=? 10
          then match r with
               | Raise FuturesTimeoutError | Raise (TimeoutError _) => Ok []
               | _ => r
               end
          else Ok []).
Proof.
  intros E. unfold run_ocr_config, try_except.
  rewrite E, timeout_block_finishes.
  destruct (d <=? 10); [|reflexivity].
  destruct r as [t | []]; reflexivity.
Qed.

Lemma run_ocr_config_hangs env image config s :
  image_to_string env image config = Hangs ->
  run_ocr_config env image config s = None.
Proof.
  intros E. unfold run_ocr_config, try_except.
  now rewrite E, timeout_block_hangs.
Qed.




(** ** The race: [executor.map] and [max] *)

Section FirstOfTheGreatest.

Context {A : Type} (key : A -> nat).



End FirstOfTheGreatest.

Section ExecutorMap.

Context {X Y : Type} (f : X -> M Y).


Lemma all_finished_when_all_finish (ws : list (option nat)) (t : nat) :
  Forall (fun w => w <> None) ws -> exists t', all_finished ws t = Some t'.
Proof.
  intros H. revert t. induction H as [|w ws Hw _ IH]; intros t; simpl.
  - now exists t.
  - destruct w as [finish|]; [apply IH | congruence].
Qed.


End ExecutorMap.



(** On that image [extract_from_image] returns the first of the two
    longest outputs, trimmed, although the second finished earlier. *)
Example extract_from_image_tie :
  option_map snd (extract_from_image tied_race start) = Some (Ok (lit "abcd")).
Proof. vm_compute. reflexivity. Qed.

(** ** The fallback pipeline *)

(** A handler that returns a text for every exception leaves nothing to
    raise. *)
Lemma try_except_returning A (m : M A) (x : A) s :
  match try_except m (fun _ => ret x) s with
  | Some (_, Raise _) => False
  | _ => True
  end.
Proof.
  unfold try_except, ret. now destruct (m s) as [[s' [a | e]]|].
Qed.

Lemma extract_from_pdf_fallback_never_raises env s s' e :
  extract_from_pdf_fallback env s <> Some (s', Raise e).
Proof.
  intros E. unfold extract_from_pdf_fallback in E.
  match type of E with
  | try_except ?m _ _ = _ => pose proof (try_except_returning m failed_text s) as H
  end.
  now rewrite E in H.
Qed.

Lemma extract_from_pdf_fallback_hangs env s :
  convert_from_path env 1 1 100 = Hangs ->
  extract_from_pdf_fallback env s = None.
Proof.
  intros E. unfold extract_from_pdf_fallback, try_except, bind.
  now rewrite E, timeout_block_hangs.
Qed.

(** ** The document pipeline: falling back *)

Lemma startswith_nil s : startswith s [] = true.
Proof. now destruct s. Qed.

Lemma startswith_app s t p : startswith s p = true -> startswith (s ++ t) p = true.
Proof.
  revert s. induction p as [|a p IH]; intros s; [intros _; apply startswith_nil|].
  destruct s as [|b s]; simpl; [discriminate|].
  intros H. apply andb_true_iff in H as [-> H]. simpl. now apply IH.
Qed.

Lemma contains_app_l needle s t :
  contains needle s = true -> contains needle (s ++ t) = true.
Proof.
  induction s as [|b s IH].
  - simpl. rewrite orb_false_r. intros H. destruct needle; [|discriminate].
    destruct t; reflexivity.
  - cbn [contains app]. intros H. apply orb_true_iff in H as [H | H].
    + change (startswith (b :: s ++ t) needle) with (startswith ((b :: s) ++ t) needle).
      now rewrite (startswith_app _ t _ H).
    + rewrite (IH H). apply orb_true_r.
Qed.

Lemma contains_app_r needle s t :
  contains needle t = true -> contains needle (s ++ t) = true.
Proof.
  intros H. induction s as [|b s IH]; [exact H|].
  cbn [contains app]. rewrite IH. apply orb_true_r.
Qed.

Lemma contains_join needle sep parts :
  Exists (fun r => contains needle r = true) parts ->
  contains needle (join sep parts) = true.
Proof.
  induction 1 as [r rest H | r rest Hex IH].
  - destruct rest as [|r' rest']; [exact H|].
    change (join sep (r :: r' :: rest')) with (r ++ sep ++ join sep (r' :: rest')).
    now apply contains_app_l.
  - destruct rest as [|r' rest']; [inversion Hex|].
    change (join sep (r :: r' :: rest')) with (r ++ sep ++ join sep (r' :: rest')).
    now apply contains_app_r, contains_app_r.
Qed.

(** C5. When [extract_from_pdf] has reached the recognizer (no embedded
    text, the pages rasterized, every page back with its result) and the
    joined results are blank or some page's result contains the timeout
    placeholder, what it returns is what the fallback pipeline, started at
    that moment, returns. *)
Theorem extract_from_pdf_falls_back :
  forall env s s1 s2 s3 (images : list Image) (results : list str),
    embedded_text_attempt env s = Some (s1, Ok None) ->
    timeout 60 (lit "PDF conversion")
      (fun run => run _ (ConvertFromPath 1 3 150) (convert_from_path env 1 3 150)) s1
    = Some (s2, Ok images) ->
    with_executor
      (executor_map (fun p => process_pdf_page env (fst p) (snd p))
                    (enumerate 1 images)) s2
    = Some (s3, Ok results) ->
    blank (join [newline] results) = true
    \/ Exists (fun r => contains timeout_placeholder r = true) results ->
    extract_from_pdf env s = extract_from_pdf_fallback env s3.
Proof.
  intros env s s1 s2 s3 images results Hembedded Himages Hresults Hcond.
  assert (Htest : (blank (join [newline] results)
                   || contains timeout_placeholder (join [newline] results))%bool = true).
  { destruct Hcond as [H | H].
    - now rewrite H.
    - rewrite (contains_join _ _ H). apply orb_true_r. }
  unfold extract_from_pdf, try_except, bind at 1. rewrite Hembedded.
  unfold ocr_pages, bind. rewrite Himages, Hresults, Htest.
  destruct (extract_from_pdf_fallback env s3) as [[s4 [text | e]]|] eqn:E;
    [reflexivity | | reflexivity].
  now apply extract_from_pdf_fallback_never_raises in E.
Qed.

Lemma extract_from_pdf_falls_back_witness :
  extract_from_pdf late_second_page start
  = extract_from_pdf_fallback late_second_page
      (mkState 44
         [PdfplumberOpen; ExtractText; ConvertFromPath 1 3 150;
          ImageToString whitelist_config; ImageToString whitelist_config] []).
Proof.
  apply (@extract_from_pdf_falls_back late_second_page start
           (mkState 2 [PdfplumberOpen; ExtractText] [])
           (mkState 4 [PdfplumberOpen; ExtractText; ConvertFromPath 1 3 150] [])
           (mkState 44
              [PdfplumberOpen; ExtractText; ConvertFromPath 1 3 150;
               ImageToString whitelist_config; ImageToString whitelist_config] [])
           [page_one; page_two]
           [page_marker 1 ++ lit "first page";
            page_marker 2 ++ timeout_placeholder]).
  - vm_compute. reflexivity.
  - vm_compute. reflexivity.
  - vm_compute. reflexivity.
  - right. apply Exists_cons_tl, Exists_cons_hd. vm_compute. reflexivity.
Defined.

(** ** The document pipeline: embedded text *)

Lemma for_each_extract_text (pages : list (behaviour (option str)))
    (outs : list (nat * option str)) s :
  Forall2 (fun page out => page = Finishes (fst out) (Ok (snd out))) pages outs ->
  for_each (fun page => t <- blocking ExtractText page ;; ret (text_or_empty t)) pages s
  = Some (mkState (now s + list_sum (map fst outs))
                  (calls s ++ map (fun _ => ExtractText) outs)
                  (pending s),
          Ok (map (fun out => text_or_empty (snd out)) outs)).
Proof.
  intros H. revert s. induction H as [|page out pages outs E _ IH]; intros s.
  - simpl. unfold ret. rewrite Nat.add_0_r, app_nil_r. now destruct s.
  - subst page. cbn [for_each]. unfold bind at 1. unfold bind at 1.
    cbn [blocking]. unfold ret at 1. unfold bind at 1.
    rewrite IH. cbn [now calls pending map list_sum fold_right].
    unfold ret. rewrite <- app_assoc, Nat.add_assoc. reflexivity.
Qed.

(** C7. When pdfplumber opens the document and the text of its first
    three pages, joined by newlines, is not blank, [extract_from_pdf]
    returns that text as it is, once those calls have finished; the calls
    it has made are the opening of the document and one text extraction a
    page, none to the rasterizer or the recognizer. *)
Theorem embedded_text_short_circuits :
  forall env s d (pages : list (behaviour (option str)))
         (outs : list (nat * option str)),
    pdfplumber_open env = Finishes d (Ok pages) ->
    Forall2 (fun page out => page = Finishes (fst out) (Ok (snd out)))
            (firstn 3 pages) outs ->
    blank (join [newline] (map (fun out => text_or_empty (snd out)) outs)) = false ->
    extract_from_pdf env s
    = Some (mkState (now s + d + list_sum (map fst outs))
                    (calls s ++ PdfplumberOpen :: map (fun _ => ExtractText) outs)
                    (pending s),
            Ok (join [newline] (map (fun out => text_or_empty (snd out)) outs))).
Proof.
  intros env s d pages outs Hopen Hpages Hblank.
  unfold extract_from_pdf, try_except at 1, bind at 1.
  unfold embedded_text_attempt, try_except, bind at 1.
  rewrite Hopen. cbn [blocking]. unfold bind at 1.
  rewrite (for_each_extract_text _ Hpages). rewrite Hblank.
  unfold ret. cbn [now calls pending]. rewrite <- app_assoc. reflexivity.
Qed.

Lemma embedded_text_short_circuits_witness :
  extract_from_pdf vector_pdf start
  = Some (mkState 5 [PdfplumberOpen; ExtractText; ExtractText; ExtractText] [],
          Ok (lit "Invoice 42 " ++ [newline] ++ [newline] ++ lit " total: 10")).
Proof.
  assert (Hpages :
            Forall2 (fun page (out : nat * option str) =>
                       page = Finishes (fst out) (Ok (snd out)))
              (firstn 3 [Finishes 1 (Ok (Some (lit "Invoice 42 ")));
                         Finishes 2 (Ok None);
                         Finishes 1 (Ok (Some (lit " total: 10")));
                         Hangs])
              [(1, Some (lit "Invoice 42 ")); (2, None); (1, Some (lit " total: 10"))]).
  { repeat (apply Forall2_cons; [reflexivity|]). apply Forall2_nil. }
  exact (@embedded_text_short_circuits vector_pdf start 1 _ _ eq_refl Hpages eq_refl).
Defined.

(** ** The page pipeline *)

Lemma process_pdf_page_hangs env page_number image s :
  image_to_string env (preprocess_image (image_ops env) image) whitelist_config
  = Hangs ->
  process_pdf_page env page_number image s = None.
Proof.
  intros E. unfold process_pdf_page, try_except, bind, timeout, with_executor.
  rewrite E. reflexivity.
Qed.

(** A first recognizer call that finishes after more than 30 seconds: the
    page is the placeholder, handed back when the call has finished. *)
Lemma process_pdf_page_late env page_number image d r s :
  image_to_string env (preprocess_image (image_ops env) image) whitelist_config
  = Finishes d r ->
  30 < d ->
  process_pdf_page env page_number image s
  = Some (mkState (now s + d) (calls s ++ [ImageToString whitelist_config]) (pending s),
          Ok (page_marker page_number ++ timeout_placeholder)).
Proof.
  intros E Hd. unfold process_pdf_page, try_except, bind, timeout, with_executor.
  rewrite E, run_late by exact Hd.
  cbn [now calls pending all_finished].
  rewrite Nat.max_r by lia. reflexivity.
Qed.


(** The same when the first call reads nothing in time and the second,
    permissive, call is the late one. *)
Lemma process_pdf_page_late_retry env page_number image d1 text d2 r s :
  image_to_string env (preprocess_image (image_ops env) image) whitelist_config
  = Finishes d1 (Ok text) ->
  d1 <= 30 ->
  blank text = true ->
  image_to_string env (preprocess_image (image_ops env) image) (lit "--psm 6 --oem 1")
  = Finishes d2 r ->
  30 < d2 ->
  process_pdf_page env page_number image s
  = Some (mkState (now s + d1 + d2)
            (calls s ++ [ImageToString whitelist_config;
                         ImageToString (lit "--psm 6 --oem 1")])
            (pending s),
          Ok (page_marker page_number ++ timeout_placeholder)).
Proof.
  intros E1 Hd1 Hb E2 Hd2.
  unfold process_pdf_page, try_except, bind, timeout, with_executor.
  rewrite E1, run_in_time by exact Hd1. rewrite Hb, E2, run_late by exact Hd2.
  cbn [now calls pending all_finished].
  rewrite <- app_assoc. cbn [app].
  replace (Nat.max (Nat.max (now s + d1 + 30) (now s + d1 + d2)) (now s + d1))
    with (now s + d1 + d2) by lia.
  reflexivity.
Qed.

(** C6 fails on the code when the recognizer call never returns: the
    page's [TimeoutError] is raised after 30 seconds, but leaving the
    block of [timeout] waits for the call, so [process_pdf_page] never
    returns the placeholder, and the document never gets the result of the
    first page, which was read in 2 seconds. *)
Theorem stuck_recognizer_blocks_the_page :
  process_pdf_page stuck_second_page 2 page_two start = None
  /\ option_map snd (process_pdf_page stuck_second_page 1 page_one start)
     = Some (Ok (page_marker 1 ++ lit "first page"))
  /\ with_executor
       (executor_map (fun p => process_pdf_page stuck_second_page (fst p) (snd p))
          (enumerate 1 [page_one; page_two])) start
     = None
  /\ extract_from_pdf stuck_second_page start = None.
Proof. repeat split; vm_compute; reflexivity. Qed.

(** With a recognizer that is late but finishes, the pages come back in
    page order, the late one as the placeholder. *)
Example late_page_is_the_placeholder :
  option_map snd
    (with_executor
       (executor_map (fun p => process_pdf_page late_second_page (fst p) (snd p))
          (enumerate 1 [page_one; page_two])) start)
  = Some (Ok [page_marker 1 ++ lit "first page";
              page_marker 2 ++ timeout_placeholder]).
Proof. vm_compute. reflexivity. Qed.

(** ** The fallback pipeline: when it answers *)

Lemma executor_map_returns {X Y : Type} (f : X -> M Y) (xs : list X) (s : state) :
  Forall (fun x => f x (mkState (now s) [] []) <> None) xs ->
  exists s' r, with_executor (executor_map f xs) s = Some (s', r).
Proof.
  intros H. unfold with_executor, executor_map. cbn [now calls pending].
  set (threads := map (fun x => f x (mkState (now s) [] [])) xs).
  assert (Hthreads : Forall (fun thread => thread <> None) threads).
  { subst threads. induction H; simpl; constructor; auto. }
  clearbody threads.
  assert (Hwait : forall t, exists t' r, wait_in_order threads t = Some (t', r)).
  { clear -Hthreads. induction Hthreads as [|thread threads Hthread _ IH]; intros t.
    - now exists t, (Ok []).
    - destruct thread as [[s' [y | e]]|]; [| |congruence]; simpl.
      + destruct (IH (Nat.max t (now s'))) as (t' & [ys | e] & ->); eauto.
      + eauto. }
  destruct (Hwait (now s)) as (t' & r & ->). cbn [now calls pending].
  assert (Hfin : Forall (fun w => w <> None) (map finish_time threads ++ [])).
  { rewrite app_nil_r. clear -Hthreads.
    induction Hthreads as [|thread threads Hthread _ IH]; simpl; constructor; auto.
    destruct thread as [[s' r]|]; [discriminate | congruence]. }
  destruct (all_finished_when_all_finish t' Hfin) as (t'' & ->).
  eauto.
Qed.

(** When no call of the rasterizer or the recognizer hangs, the fallback
    pipeline returns a text. *)
Lemma extract_from_pdf_fallback_returns env s :
  convert_from_path env 1 1 100 <> Hangs ->
  (forall image config, image_to_string env image config <> Hangs) ->
  exists s' text, extract_from_pdf_fallback env s = Some (s', Ok text).
Proof.
  intros Hraster Hrecognize.
  assert (Hbody : forall (m : M str) s0 r0,
             m s = Some (s0, r0) ->
             exists s' text, try_except m (fun _ => ret failed_text) s = Some (s', Ok text)).
  { intros m s0 r0 E. unfold try_except. rewrite E. destruct r0; unfold ret; eauto. }
  unfold extract_from_pdf_fallback.
  destruct (convert_from_path env 1 1 100) as [|d r] eqn:E; [congruence|].
  match goal with
  | |- exists s' text, try_except ?m _ _ = _ =>
      assert (Hm : exists s0 r0, m s = Some (s0, r0));
      [|destruct Hm as (s0 & r0 & Hm); exact (Hbody _ _ _ Hm)]
  end.
  unfold bind at 1. rewrite timeout_block_finishes.
  destruct (if d <=? 90 then _ else _) as [[|image0 images] | e];
    [unfold raise; eauto | | eauto].
  unfold bind.
  match goal with
  | |- context [with_executor (executor_map ?f ?xs) ?s1] =>
      destruct (@executor_map_returns _ _ f xs s1) as (s2 & r2 & ->)
  end.
  - apply Forall_forall. intros config _.
    destruct (image_to_string env (preprocess_image (image_ops env) image0) config)
      as [|d' r'] eqn:E'; [now apply Hrecognize in E'|].
    now rewrite (run_ocr_config_finishes _ _ _ _ E').
  - destruct r2 as [results | e]; [|eauto].
    destruct (py_max _ results) as [best|]; [|unfold raise; eauto].
    destruct (blank best); unfold ret; eauto.
Qed.

(** C8 fails on the code when a call hangs: with a rasterizer or a
    recognizer that never returns, [extract_from_pdf_fallback] neither
    raises nor returns a text; its caller waits for ever in the shutdown
    of the executor. *)
Theorem stuck_collaborator_blocks_the_fallback :
  extract_from_pdf_fallback stuck_rasterizer start = None
  /\ extract_from_pdf_fallback stuck_recognizer start = None.
Proof. split; vm_compute; reflexivity. Qed.

(* ================================================================== *)
(** * Further properties of the module *)
(* ================================================================== *)

(** ** Blank and trimmed texts *)

Lemma blank_false_cons a s : isspace a = false -> blank (a :: s) = false.
Proof.
  intros Ha. unfold blank, strip. simpl lstrip. rewrite Ha.
  now rewrite (@rstrip_cons_keep a s Ha).
Qed.

Lemma blank_false_app_cons a s t : isspace a = false -> blank ((a :: s) ++ t) = false.
Proof. intros Ha. now apply blank_false_cons. Qed.

Lemma blank_strip s : blank (strip s) = blank s.
Proof. unfold blank. now rewrite strip_idempotent. Qed.

Lemma eqb_str_eq a b : eqb_str a b = true <-> a = b.
Proof.
  revert b. induction a as [|x a IH]; intros [|y b]; simpl; split;
    try congruence; try discriminate.
  - intros H. apply andb_true_iff in H as [Hx Ha].
    apply N.eqb_eq in Hx. apply IH in Ha. congruence.
  - intros [= -> ->]. rewrite N.eqb_refl. now apply IH.
Qed.

Lemma eqb_str_neq a b : a <> b -> eqb_str a b = false.
Proof.
  intros H. destruct (eqb_str a b) eqn:E; [|reflexivity].
  now apply eqb_str_eq in E.
Qed.

(** ** [extract_from_docx] *)

(** X1. A DOCX file in which docx2txt finds only white space is an error,
    not an empty success: [extract_from_docx] raises
    "Failed to extract text from DOCX: No text found in DOCX file". *)
Theorem docx_without_text_is_an_error :
  forall fs d text s,
    docx2txt_process fs = Finishes d (Ok text) ->
    blank text = true ->
    extract_from_docx fs s
    = Some (mkState (now s + d) (calls s) (pending s),
            Raise (Exception
                     (lit "Failed to extract text from DOCX: No text found in DOCX file"))).
Proof.
  intros fs d text s E Hb.
  unfold extract_from_docx, try_except, bind, direct. rewrite E, Hb.
  reflexivity.
Qed.

Lemma docx_without_text_is_an_error_witness :
  extract_from_docx (a_file (lit ".docx") (lit "  ")) start
  = Some (mkState 1 [] [],
          Raise (Exception
                   (lit "Failed to extract text from DOCX: No text found in DOCX file"))).
Proof.
  apply (@docx_without_text_is_an_error (a_file (lit ".docx") (lit "  ")) 1
           (lit "  ") start); reflexivity.
Defined.

Lemma extract_from_docx_trimmed fs s s' r :
  extract_from_docx fs s = Some (s', r) ->
  match r with
  | Ok text => blank text = false /\ strip text = text
  | Raise e =>
      exists msg, e = Exception (lit "Failed to extract text from DOCX: " ++ msg)
  end.
Proof.
  unfold extract_from_docx, try_except, bind, direct.
  destruct (docx2txt_process fs) as [|d [text | e]]; [discriminate | |].
  - destruct (blank text) eqn:Hb; intros [= <- <-].
    + eexists. reflexivity.
    + split; [now rewrite blank_strip | apply strip_idempotent].
  - intros [= <- <-]. eexists. reflexivity.
Qed.

(** X2. Whatever [extract_from_docx] returns is not blank and has no
    white space at either end; whatever it raises is an [Exception] whose
    message starts with "Failed to extract text from DOCX: ". *)
Theorem extract_from_docx_result :
  forall fs s s' r,
    extract_from_docx fs s = Some (s', r) ->
    match r with
    | Ok text => blank text = false /\ strip text = text
    | Raise e =>
        exists msg, e = Exception (lit "Failed to extract text from DOCX: " ++ msg)
    end.
Proof. intros. eapply extract_from_docx_trimmed; eassumption. Qed.

Lemma extract_from_docx_result_witness :
  blank (lit "Dear Sir,") = false /\ strip (lit "Dear Sir,") = lit "Dear Sir,".
Proof.
  apply (@extract_from_docx_result (a_file (lit ".docx") (lit " Dear Sir, ")) start
           (mkState 1 [] []) (Ok (lit "Dear Sir,"))).
  reflexivity.
Defined.

(** ** [extract_text] *)

(** X3. For a path at which there is no file, [extract_text] raises
    "File not found: <path>" at once: no collaborator is called, no time
    passes, and the error is not wrapped as an extraction failure. *)
Theorem extract_text_missing_file :
  forall env fs file_path s,
    path_exists fs = false ->
    extract_text env fs file_path s
    = Some (s, Raise (OtherError (lit "File not found: " ++ file_path))).
Proof.
  intros env fs file_path s E. unfold extract_text. now rewrite E.
Qed.

Lemma extract_text_missing_file_witness :
  extract_text stuck_rasterizer no_file (lit "scan.pdf") start
  = Some (start, Raise (OtherError (lit "File not found: scan.pdf"))).
Proof.
  apply (@extract_text_missing_file stuck_rasterizer no_file (lit "scan.pdf") start).
  reflexivity.
Defined.

(** X4. For an existing file whose lower-cased extension is none of .pdf,
    .jpg, .jpeg, .png and .docx, [extract_text] raises "Text extraction
    failed: Unsupported file format: <ext>" without calling a collaborator
    or writing the debug copy. *)
Theorem extract_text_unsupported_format :
  forall env fs file_path s,
    path_exists fs = true ->
    ~ In (extension fs) [lit ".pdf"; lit ".jpg"; lit ".jpeg"; lit ".png"; lit ".docx"] ->
    extract_text env fs file_path s
    = Some (s, Raise (Exception
                        (lit "Text extraction failed: Unsupported file format: "
                         ++ extension fs))).
Proof.
  intros env fs file_path s E Hext.
  assert (Hneq : forall known,
             In known [lit ".pdf"; lit ".jpg"; lit ".jpeg"; lit ".png"; lit ".docx"] ->
             eqb_str (extension fs) known = false).
  { intros known Hin. apply eqb_str_neq. intros Heq. apply Hext. now rewrite Heq. }
  unfold extract_text. rewrite E. cbn [negb existsb].
  rewrite !Hneq by (simpl; tauto).
  reflexivity.
Qed.

Lemma extract_text_unsupported_format_witness :
  extract_text stuck_rasterizer (a_file (lit ".txt") (lit "notes")) (lit "notes.txt") start
  = Some (start, Raise (Exception
                          (lit "Text extraction failed: Unsupported file format: .txt"))).
Proof.
  apply (@extract_text_unsupported_format stuck_rasterizer
           (a_file (lit ".txt") (lit "notes")) (lit "notes.txt") start).
  - reflexivity.
  - simpl. intros [H | [H | [H | [H | [H | []]]]]]; discriminate H.
Defined.

(** The text [extract_text] returns is the text its extractor returned. *)
Lemma extract_text_from_extractor env fs file_path s s' r :
  path_exists fs = true ->
  extract_text env fs file_path s = Some (s', r) ->
  match r with
  | Ok text =>
      (extension fs = lit ".pdf"
       /\ exists s1, extract_from_pdf env s = Some (s1, Ok text))
      \/ (In (extension fs) [lit ".jpg"; lit ".jpeg"; lit ".png"]
          /\ exists s1, extract_from_image env s = Some (s1, Ok text))
      \/ (extension fs = lit ".docx"
          /\ exists s1, extract_from_docx fs s = Some (s1, Ok text))
  | Raise e => exists msg, e = Exception (lit "Text extraction failed: " ++ msg)
  end.
Proof.
  intros E. unfold extract_text. rewrite E. cbn [negb].
  assert (Hwrite : forall text s1 s2 (r2 : result str),
             (_ <- try_except (direct (write_debug_text fs text)) (fun _ => ret tt) ;;
              ret text) s1 = Some (s2, r2) -> r2 = Ok text).
  { intros text s1 s2 r2. unfold bind, try_except, direct, ret.
    destruct (write_debug_text fs text) as [|d [[] | e]]; congruence. }
  assert (Hcase : forall (m : M str),
             try_except
               (text <- m ;;
                _ <- try_except (direct (write_debug_text fs text)) (fun _ => ret tt) ;;
                ret text)
               (fun e => raise (Exception (lit "Text extraction failed: " ++ str_of_exn e)))
               s = Some (s', r) ->
             match r with
             | Ok text => exists s1, m s = Some (s1, Ok text)
             | Raise e => exists msg, e = Exception (lit "Text extraction failed: " ++ msg)
             end).
  { intros m. unfold try_except at 1. unfold bind at 1.
    destruct (m s) as [[s1 [text | e]]|]; [| |discriminate].
    - match goal with
      | |- context [match ?c s1 with _ => _ end] => destruct (c s1) as [[s2 r2]|] eqn:Ec
      end; [|discriminate].
      apply Hwrite in Ec. subst r2. intros [= <- <-]. now exists s1.
    - unfold raise. intros [= <- <-]. eexists. reflexivity. }
  destruct (eqb_str (extension fs) (lit ".pdf")) eqn:Epdf.
  { intros H. apply Hcase in H. destruct r; [|exact H].
    left. split; [now apply eqb_str_eq|exact H]. }
  destruct (existsb (eqb_str (extension fs)) [lit ".jpg"; lit ".jpeg"; lit ".png"])
    eqn:Eimg.
  { intros H. apply Hcase in H. destruct r; [|exact H].
    right; left. split; [|exact H].
    apply existsb_exists in Eimg as (known & Hin & Heq).
    apply eqb_str_eq in Heq. now subst known. }
  destruct (eqb_str (extension fs) (lit ".docx")) eqn:Edocx.
  { intros H. apply Hcase in H. destruct r; [|exact H].
    right; right. split; [now apply eqb_str_eq|exact H]. }
  intros H. apply Hcase in H. destruct r; [|exact H].
  destruct H as (s1 & H). discriminate H.
Qed.

(** X5. Every exception that leaves [extract_text] for an existing file
    is an [Exception] whose message starts with "Text extraction
    failed: "; a text it returns is the text that [extract_from_pdf] (for
    .pdf), [extract_from_image] (for .jpg, .jpeg, .png) or
    [extract_from_docx] (for .docx) returned for the file, unchanged. *)
Theorem extract_text_result :
  forall env fs file_path s s' r,
    path_exists fs = true ->
    extract_text env fs file_path s = Some (s', r) ->
    match r with
    | Ok text =>
        (extension fs = lit ".pdf"
         /\ exists s1, extract_from_pdf env s = Some (s1, Ok text))
        \/ (In (extension fs) [lit ".jpg"; lit ".jpeg"; lit ".png"]
            /\ exists s1, extract_from_image env s = Some (s1, Ok text))
        \/ (extension fs = lit ".docx"
            /\ exists s1, extract_from_docx fs s = Some (s1, Ok text))
    | Raise e => exists msg, e = Exception (lit "Text extraction failed: " ++ msg)
    end.
Proof. intros. eapply extract_text_from_extractor; eassumption. Qed.

Lemma extract_text_result_witness :
  exists msg,
    Exception (lit "Text extraction failed: Failed to extract text from DOCX: No text found in DOCX file")
    = Exception (lit "Text extraction failed: " ++ msg).
Proof.
  apply (@extract_text_result vector_pdf (a_file (lit ".docx") (lit "  "))
           (lit "empty.docx") start (mkState 1 [] [])
           (Raise (Exception (lit "Text extraction failed: Failed to extract text from DOCX: No text found in DOCX file"))));
    reflexivity.
Defined.

(** X6. Whether the debug copy of the text can be written or not makes no
    difference to what [extract_text] returns or raises: two file systems
    that differ only in how writing logs/debug_extracted_text.txt ends
    (without hanging) give the same outcome. *)
Theorem debug_copy_failure_is_harmless :
  forall env fs fs' file_path s,
    path_exists fs' = path_exists fs ->
    extension fs' = extension fs ->
    docx2txt_process fs' = docx2txt_process fs ->
    (forall text, write_debug_text fs text <> Hangs) ->
    (forall text, write_debug_text fs' text <> Hangs) ->
    option_map snd (extract_text env fs' file_path s)
    = option_map snd (extract_text env fs file_path s).
Proof.
  intros env fs fs' file_path s Hp He Hd Hw Hw'.
  assert (Hdocx : extract_from_docx fs' = extract_from_docx fs)
    by (unfold extract_from_docx; now rewrite Hd).
  unfold extract_text. rewrite Hp, He, Hdocx.
  destruct (negb (path_exists fs)); [reflexivity|].
  cbv zeta.
  match goal with
  | |- context [bind ?m _] => set (extractor := m)
  end.
  unfold try_except at 1 3. unfold bind at 1 3.
  destruct (extractor s) as [[s1 [text | e]]|]; [| reflexivity | reflexivity].
  unfold bind, try_except, direct, ret.
  specialize (Hw text). specialize (Hw' text).
  destruct (write_debug_text fs text) as [|d [[] | e]]; [congruence | |];
    destruct (write_debug_text fs' text) as [|d' [[] | e']]; try congruence;
    reflexivity.
Qed.

Lemma debug_copy_failure_is_harmless_witness :
  option_map snd
    (extract_text vector_pdf (read_only_logs (lit ".pdf") []) (lit "invoice.pdf") start)
  = option_map snd
      (extract_text vector_pdf (a_file (lit ".pdf") []) (lit "invoice.pdf") start).
Proof.
  apply (@debug_copy_failure_is_harmless vector_pdf (a_file (lit ".pdf") [])
           (read_only_logs (lit ".pdf") []) (lit "invoice.pdf") start);
    try reflexivity; intros text; discriminate.
Defined.

(** ** Texts that come back are never blank *)

Lemma extract_from_pdf_fallback_text env s s' text :
  extract_from_pdf_fallback env s = Some (s', Ok text) ->
  text = failed_text \/ text = unable_text
  \/ exists best, blank best = false /\ text = fallback_marker ++ strip best.
Proof.
  unfold extract_from_pdf_fallback, try_except, bind.
  destruct (timeout 90 _ _ s) as [[s1 [[|image0 images] | e]]|];
    [| | |discriminate]; unfold raise, ret.
  - intros [= <- <-]. now left.
  - destruct (with_executor _ s1) as [[s2 [results | e]]|]; [| |discriminate].
    + destruct (py_max _ results) as [best|].
      * destruct (blank best) eqn:Hb; intros [= <- <-]; [now right; left|].
        right; right. now exists best.
      * intros [= <- <-]. now left.
    + intros [= <- <-]. now left.
  - intros [= <- <-]. now left.
Qed.

Lemma extract_from_pdf_fallback_not_blank env s s' text :
  extract_from_pdf_fallback env s = Some (s', Ok text) -> blank text = false.
Proof.
  intros H. apply extract_from_pdf_fallback_text in H
    as [-> | [-> | (best & _ & ->)]]; [reflexivity | reflexivity |].
  assert (Hmarker : exists rest, fallback_marker = 45%N :: rest)
    by (eexists; reflexivity).
  destruct Hmarker as (rest & ->). now apply blank_false_app_cons.
Qed.

Lemma embedded_text_attempt_result env s s' r :
  embedded_text_attempt env s = Some (s', r) ->
  match r with
  | Ok (Some text) => blank text = false
  | Ok None => True
  | Raise _ => False
  end.
Proof.
  unfold embedded_text_attempt, try_except, bind.
  destruct (blocking PdfplumberOpen (pdfplumber_open env) s) as [[s1 [pages | e]]|];
    [| |discriminate]; unfold ret.
  - destruct (for_each _ _ s1) as [[s2 [texts | e]]|]; [| |discriminate].
    + destruct (blank (join [newline] texts)) eqn:Hb; intros [= <- <-]; auto.
    + intros [= <- <-]. exact I.
  - intros [= <- <-]. exact I.
Qed.

Lemma ocr_pages_not_blank env s s' text :
  ocr_pages env s = Some (s', Ok text) -> blank text = false.
Proof.
  unfold ocr_pages, bind.
  destruct (timeout 60 _ _ s) as [[s1 [images | e]]|]; [| discriminate | discriminate].
  destruct (with_executor _ s1) as [[s2 [results | e]]|]; [| discriminate | discriminate].
  destruct (blank (join [newline] results)) eqn:Hb.
  - apply extract_from_pdf_fallback_not_blank.
  - destruct (contains timeout_placeholder (join [newline] results)).
    + apply extract_from_pdf_fallback_not_blank.
    + unfold ret. intros [= <- <-]. now rewrite blank_strip.
Qed.

Lemma extract_from_pdf_not_blank env s s' text :
  extract_from_pdf env s = Some (s', Ok text) -> blank text = false.
Proof.
  unfold extract_from_pdf, try_except at 1, bind at 1.
  destruct (embedded_text_attempt env s) as [[s1 r]|] eqn:E; [|discriminate].
  apply embedded_text_attempt_result in E.
  destruct r as [[embedded|] | e]; [| |contradiction].
  - unfold ret. now intros [= <- <-].
  - destruct (ocr_pages env s1) as [[s2 [t | e]]|] eqn:Eo; [| |discriminate].
    + intros [= <- <-]. now apply ocr_pages_not_blank in Eo.
    + destruct e; discriminate.
Qed.

Lemma extract_from_image_trimmed env s s' text :
  extract_from_image env s = Some (s', Ok text) ->
  blank text = false /\ strip text = text.
Proof.
  unfold extract_from_image, try_except, bind.
  destruct (timeout 30 _ _ s) as [[s1 [image | e]]|]; [| |discriminate].
  - destruct (with_executor _ s1) as [[s2 [results | e]]|]; [| |discriminate].
    + destruct (py_max _ results) as [best|]; [|discriminate].
      destruct (blank best) eqn:Hb; [discriminate|].
      unfold ret. intros [= <- <-].
      split; [now rewrite blank_strip | apply strip_idempotent].
    + destruct e; discriminate.
  - destruct e; discriminate.
Qed.

(** X7. A text returned by [extract_from_pdf] is never blank, whichever
    way it was obtained: embedded text, recognized pages, or the fallback
    pipeline with its placeholders. *)
Theorem extract_from_pdf_never_blank :
  forall env s s' text,
    extract_from_pdf env s = Some (s', Ok text) -> blank text = false.
Proof. intros. eapply extract_from_pdf_not_blank; eassumption. Qed.

Lemma extract_from_pdf_never_blank_witness :
  blank (lit "--- Page 1 ---") = false.
Proof.
  apply (@extract_from_pdf_never_blank empty_scan start
           (mkState 6 [PdfplumberOpen; ExtractText; ConvertFromPath 1 3 150;
                       ImageToString whitelist_config;
                       ImageToString (lit "--psm 6 --oem 1")] [])
           (lit "--- Page 1 ---")).
  vm_compute. reflexivity.
Defined.

(** X8. A text returned by [extract_from_image] is not blank and has no
    white space at either end. *)
Theorem extract_from_image_never_blank :
  forall env s s' text,
    extract_from_image env s = Some (s', Ok text) ->
    blank text = false /\ strip text = text.
Proof. intros. eapply extract_from_image_trimmed; eassumption. Qed.

Lemma extract_from_image_never_blank_witness :
  blank (lit "abcd") = false /\ strip (lit "abcd") = lit "abcd".
Proof.
  apply (@extract_from_image_never_blank tied_race start
           (mkState 13
              [ImageOpen; ImageToString (lit "--psm 1 --oem 1");
               ImageToString (lit "--psm 3 --oem 1");
               ImageToString (lit "--psm 6 --oem 1");
               ImageToString (lit "--psm 4 --oem 1")] [])
           (lit "abcd")).
  vm_compute. reflexivity.
Defined.



(** ** More on the page pipeline *)

Lemma page_marker_starts page_number :
  exists rest, page_marker page_number = 45%N :: rest.
Proof. eexists. reflexivity. Qed.






Lemma process_pdf_page_marked env page_number image s s' text :
  process_pdf_page env page_number image s = Some (s', Ok text) ->
  exists body, text = page_marker page_number ++ body.
Proof.
  unfold process_pdf_page, try_except, bind.
  destruct (timeout 30 _ _ s) as [[s1 [t | e]]|]; [| |discriminate]; unfold ret.
  - intros [= <- <-]. eexists. reflexivity.
  - destruct e; unfold raise; try discriminate.
    intros [= <- <-]. eexists. reflexivity.
Qed.

(** X12. Every text [process_pdf_page] returns starts with the marker of
    its own page, "--- Page <n> ---" and a newline, whether the page was
    read, read as nothing, or skipped for a timeout. *)
Theorem process_pdf_page_starts_with_marker :
  forall env page_number image s s' text,
    process_pdf_page env page_number image s = Some (s', Ok text) ->
    exists body, text = page_marker page_number ++ body.
Proof. intros. eapply process_pdf_page_marked; eassumption. Qed.

Lemma process_pdf_page_starts_with_marker_witness :
  exists body, page_marker 2 ++ timeout_placeholder = page_marker 2 ++ body.
Proof.
  apply (@process_pdf_page_starts_with_marker late_second_page 2 page_two start
           (mkState 40 [ImageToString whitelist_config] [])
           (page_marker 2 ++ timeout_placeholder)).
  vm_compute. reflexivity.
Defined.

(** ** More on the document pipeline *)

Lemma wait_in_order_returned {Y} (threads : list (option (state * result Y))) t t' ys :
  wait_in_order threads t = Some (t', Ok ys) ->
  Forall2 (fun thread y => exists sx, thread = Some (sx, Ok y)) threads ys.
Proof.
  revert t t' ys. induction threads as [|thread threads IH]; intros t t' ys; simpl.
  - intros [= <- <-]. constructor.
  - destruct thread as [[sx [y | e]]|]; [| discriminate | discriminate].
    destruct (wait_in_order threads (Nat.max t (now sx))) as [[t1 [ys1 | e]]|] eqn:E;
      [| discriminate | discriminate].
    intros [= <- <-]. constructor; [now exists sx | eapply IH; eassumption].
Qed.

Lemma executor_map_returned {X Y} (f : X -> M Y) (xs : list X) s s' ys :
  with_executor (executor_map f xs) s = Some (s', Ok ys) ->
  Forall2 (fun x y => exists sx, f x (mkState (now s) [] []) = Some (sx, Ok y)) xs ys.
Proof.
  unfold with_executor, executor_map. cbn [now calls pending].
  destruct (wait_in_order _ (now s)) as [[t r]|] eqn:E; [|discriminate].
  cbn [now calls pending].
  destruct (all_finished _ t); [|discriminate].
  intros [= <- ->]. apply wait_in_order_returned in E.
  clear -E. revert ys E. induction xs as [|x xs IH]; intros ys E; simpl in E.
  - inversion E. constructor.
  - inversion E; subst. constructor; auto.
Qed.

Lemma join_of_marked_not_blank (results : list str) :
  results <> [] ->
  Forall (fun r => exists page_number body, r = page_marker page_number ++ body) results ->
  blank (join [newline] results) = false.
Proof.
  intros Hne H. destruct results as [|r rest]; [congruence|].
  apply Forall_inv in H. destruct H as (n & body & ->).
  destruct (page_marker_starts n) as (tail & ->).
  destruct rest as [|r' rest'].
  - now apply blank_false_app_cons.
  - change (join [newline] (((45%N :: tail) ++ body) :: r' :: rest'))
      with (((45%N :: tail) ++ body) ++ [newline] ++ join [newline] (r' :: rest')).
    rewrite <- app_assoc. now apply blank_false_app_cons.
Qed.

(** X13. Once there is at least one rasterized page, the joined page
    results are never blank, since every page brings its marker: of the
    two conditions under which [extract_from_pdf] falls back, the blank
    one can hold only when the rasterizer returned no image at all. A page
    on which nothing is read does not by itself cause the fallback. *)
Theorem page_results_blank_only_without_pages :
  forall env (images : list Image) s s' (results : list str),
    with_executor
      (executor_map (fun p => process_pdf_page env (fst p) (snd p))
                    (enumerate 1 images)) s
    = Some (s', Ok results) ->
    blank (join [newline] results) = true ->
    images = [].
Proof.
  intros env images s s' results H Hb.
  apply executor_map_returned in H.
  destruct images as [|image images]; [reflexivity|].
  rewrite join_of_marked_not_blank in Hb; [discriminate | |].
  - inversion H. discriminate.
  - clear -H. induction H as [|p r ps rs (sx & Hp) _ IH]; constructor; auto.
    apply process_pdf_page_marked in Hp as (body & ->). eauto.
Qed.

Lemma page_results_blank_only_without_pages_witness :
  @nil Image = [].
Proof.
  apply (@page_results_blank_only_without_pages empty_scan [] start start []);
    reflexivity.
Defined.

(** X14. A rasterizer that is late or fails ends [extract_from_pdf] in an
    exception, the fallback pipeline is not tried: after more than 60
    seconds the message is "PDF processing timed out: PDF conversion timed
    out after 60 seconds", and an error of the rasterizer itself comes out
    as "Failed to extract text from PDF: <its message>". *)
Theorem extract_from_pdf_rasterizer_failure :
  forall env s s1 d (r : result (list Image)),
    embedded_text_attempt env s = Some (s1, Ok None) ->
    convert_from_path env 1 3 150 = Finishes d r ->
    (60 < d ->
     extract_from_pdf env s
     = Some (mkState (now s1 + d) (calls s1 ++ [ConvertFromPath 1 3 150]) (pending s1),
             Raise (Exception
                      (lit "PDF processing timed out: PDF conversion timed out after 60 seconds"))))
    /\ (forall msg, d <= 60 -> r = Raise (OtherError msg) ->
        extract_from_pdf env s
        = Some (mkState (now s1 + d) (calls s1 ++ [ConvertFromPath 1 3 150]) (pending s1),
                Raise (Exception (lit "Failed to extract text from PDF: " ++ msg)))).
Proof.
  intros env s s1 d r Hembedded E. split.
  - intros Hd. apply Nat.leb_gt in Hd.
    unfold extract_from_pdf, try_except, bind at 1. rewrite Hembedded.
    unfold ocr_pages, bind. rewrite E, timeout_block_finishes, Hd.
    reflexivity.
  - intros msg Hd ->. apply Nat.leb_le in Hd.
    unfold extract_from_pdf, try_except, bind at 1. rewrite Hembedded.
    unfold ocr_pages, bind. rewrite E, timeout_block_finishes, Hd.
    reflexivity.
Qed.

Lemma extract_from_pdf_rasterizer_failure_witness :
  extract_from_pdf late_rasterizer start
  = Some (mkState 72 [PdfplumberOpen; ExtractText; ConvertFromPath 1 3 150] [],
          Raise (Exception
                   (lit "PDF processing timed out: PDF conversion timed out after 60 seconds")))
  /\ extract_from_pdf failing_rasterizer start
     = Some (mkState 3 [PdfplumberOpen; ExtractText; ConvertFromPath 1 3 150] [],
             Raise (Exception
                      (lit "Failed to extract text from PDF: Unable to get page count"))).
Proof.
  split.
  - apply (proj1 (@extract_from_pdf_rasterizer_failure late_rasterizer start
                    (mkState 2 [PdfplumberOpen; ExtractText] []) 70 (Ok [page_one])
                    eq_refl eq_refl)).
    lia.
  - apply (proj2 (@extract_from_pdf_rasterizer_failure failing_rasterizer start
                    (mkState 2 [PdfplumberOpen; ExtractText] []) 1
                    (Raise (OtherError (lit "Unable to get page count")))
                    eq_refl eq_refl)
             (lit "Unable to get page count")); [lia | reflexivity].
Defined.

(** X15. A document that pdfplumber cannot open is handled exactly like
    one in which pdfplumber finds no pages: the error is swallowed and
    [extract_from_pdf] goes on to rasterize and recognize. *)
Theorem embedded_text_failure_is_swallowed :
  forall env d e s,
    pdfplumber_open env = Finishes d (Raise e) ->
    extract_from_pdf env s
    = extract_from_pdf
        (mkCollaborators (Finishes d (Ok [])) (convert_from_path env)
           (image_to_string env) (Image_open env) (image_ops env)) s.
Proof.
  intros env d e s E.
  set (env' := mkCollaborators (Finishes d (Ok [])) (convert_from_path env)
                 (image_to_string env) (Image_open env) (image_ops env)).
  assert (H : embedded_text_attempt env s
              = Some (mkState (now s + d) (calls s ++ [PdfplumberOpen]) (pending s),
                      Ok None)).
  { unfold embedded_text_attempt, try_except, bind, blocking. now rewrite E. }
  assert (H' : embedded_text_attempt env' s
               = Some (mkState (now s + d) (calls s ++ [PdfplumberOpen]) (pending s),
                       Ok None))
    by reflexivity.
  unfold extract_from_pdf, try_except, bind. rewrite H, H'. reflexivity.
Qed.

Lemma embedded_text_failure_is_swallowed_witness :
  option_map snd (extract_from_pdf broken_pdf_structure start)
  = Some (Ok (page_marker 1 ++ lit "first page" ++ [newline]
              ++ page_marker 2 ++ lit "second page")).
Proof.
  rewrite (@embedded_text_failure_is_swallowed broken_pdf_structure 1
             (OtherError (lit "No /Root object")) start eq_refl).
  vm_compute. reflexivity.
Defined.




(** ** More on the fallback pipeline and the image pipeline *)




(** X18. When the fallback rasterization takes more than 90 seconds,
    raises, or returns no image, the fallback pipeline returns the text
    "--- Page 1 ---" with "[Text extraction failed - please try a
    different document format]" as soon as the rasterizer call has ended,
    without calling the recognizer. *)
Theorem fallback_rasterizer_failure :
  forall env s d (r : result (list Image)),
    convert_from_path env 1 1 100 = Finishes d r ->
    90 < d \/ (exists e, r = Raise e) \/ r = Ok [] ->
    extract_from_pdf_fallback env s
    = Some (mkState (now s + d) (calls s ++ [ConvertFromPath 1 1 100]) (pending s),
            Ok failed_text).
Proof.
  intros env s d r E H.
  unfold extract_from_pdf_fallback, try_except, bind.
  rewrite E, timeout_block_finishes.
  destruct (Nat.leb_spec d 90) as [Hd | Hd].
  - destruct H as [H | [(e & ->) | ->]]; [lia | | reflexivity].
    now destruct e.
  - reflexivity.
Qed.

Lemma fallback_rasterizer_failure_witness :
  extract_from_pdf_fallback failing_rasterizer start
  = Some (mkState 1 [ConvertFromPath 1 1 100] [], Ok failed_text).
Proof.
  apply (@fallback_rasterizer_failure failing_rasterizer start 1
           (Raise (OtherError (lit "Unable to get page count")))).
  - reflexivity.
  - right; left. eexists. reflexivity.
Defined.

(** X19. The fallback pipeline never raises: whatever it gives back is
    one of its two placeholder texts or the fallback marker followed by a
    trimmed, non-blank recognizer output; and it does give a text back
    whenever no call of the rasterizer or the recognizer hangs. *)
Theorem fallback_answers_with_a_text :
  forall env s,
    (forall s' r,
        extract_from_pdf_fallback env s = Some (s', r) ->
        exists text,
          r = Ok text
          /\ (text = failed_text \/ text = unable_text
              \/ exists best, blank best = false /\ text = fallback_marker ++ strip best))
    /\ (convert_from_path env 1 1 100 <> Hangs ->
        (forall image config, image_to_string env image config <> Hangs) ->
        exists s' text, extract_from_pdf_fallback env s = Some (s', Ok text)).
Proof.
  intros env s. split.
  - intros s' [text | e] H.
    + exists text. split; [reflexivity|].
      now apply extract_from_pdf_fallback_text in H.
    + now apply extract_from_pdf_fallback_never_raises in H.
  - apply extract_from_pdf_fallback_returns.
Qed.

Lemma fallback_answers_with_a_text_witness :
  exists s' text, extract_from_pdf_fallback failing_config start = Some (s', Ok text).
Proof.
  apply (proj2 (fallback_answers_with_a_text failing_config start)).
  - discriminate.
  - intros image config. simpl.
    destruct (startswith config (lit "--psm 6 ")); discriminate.
Defined.

(** X20. When the image cannot be opened, [extract_from_image] raises
    without calling the recognizer: "Image processing timed out: Image
    open timed out after 30 seconds" when opening takes more than 30
    seconds, "Failed to extract text from image: <message>" when opening
    raises. *)
Theorem extract_from_image_open_failure :
  forall env s d (r : result Image),
    Image_open env = Finishes d r ->
    (30 < d ->
     extract_from_image env s
     = Some (mkState (now s + d) (calls s ++ [ImageOpen]) (pending s),
             Raise (Exception
                      (lit "Image processing timed out: Image open timed out after 30 seconds"))))
    /\ (forall msg, d <= 30 -> r = Raise (OtherError msg) ->
        extract_from_image env s
        = Some (mkState (now s + d) (calls s ++ [ImageOpen]) (pending s),
                Raise (Exception (lit "Failed to extract text from image: " ++ msg)))).
Proof.
  intros env s d r E. split.
  - intros Hd. apply Nat.leb_gt in Hd.
    unfold extract_from_image, try_except, bind.
    rewrite E, timeout_block_finishes, Hd. reflexivity.
  - intros msg Hd ->. apply Nat.leb_le in Hd.
    unfold extract_from_image, try_except, bind.
    rewrite E, timeout_block_finishes, Hd. reflexivity.
Qed.

Lemma extract_from_image_open_failure_witness :
  extract_from_image slow_image start
  = Some (mkState 31 [ImageOpen] [],
          Raise (Exception
                   (lit "Image processing timed out: Image open timed out after 30 seconds")))
  /\ extract_from_image stuck_rasterizer start
     = Some (mkState 1 [ImageOpen] [],
             Raise (Exception
                      (lit "Failed to extract text from image: cannot identify image file"))).
Proof.
  split.
  - apply (proj1 (@extract_from_image_open_failure slow_image start 31 (Ok page_one)
                    eq_refl)).
    lia.
  - apply (proj2 (@extract_from_image_open_failure stuck_rasterizer start 1
                    (Raise (OtherError (lit "cannot identify image file"))) eq_refl)
             (lit "cannot identify image file")); [lia | reflexivity].
Defined.



(** ** More on [preprocess_image] and [clean_text] *)



Lemma alnum_not_space c : (is_az c || is_09 c)%bool = true -> isspace c = false.
Proof.
  unfold is_az, is_09, isspace, between. intros H.
  repeat rewrite ?orb_true_iff, ?andb_true_iff, ?N.leb_le in H.
  repeat rewrite ?orb_false_iff, ?andb_false_iff, ?N.leb_gt, ?N.eqb_neq.
  repeat split; lia.
Qed.

Lemma space_not_alnum c : isspace c = true -> (is_az c || is_09 c)%bool = false.
Proof.
  intros H. destruct (is_az c || is_09 c)%bool eqn:E; [|reflexivity].
  apply alnum_not_space in E. congruence.
Qed.

Lemma alnum_of_lstrip s :
  filter (fun c => is_az c || is_09 c)%bool (lstrip s)
  = filter (fun c => is_az c || is_09 c)%bool s.
Proof.
  induction s as [|a s IH]; [reflexivity|].
  cbn [lstrip]. destruct (isspace a) eqn:Ha; [|reflexivity].
  cbn [filter]. now rewrite (space_not_alnum _ Ha).
Qed.

Lemma alnum_of_rstrip s :
  filter (fun c => is_az c || is_09 c)%bool (rstrip s)
  = filter (fun c => is_az c || is_09 c)%bool s.
Proof.
  induction s as [|a s IH]; [reflexivity|].
  cbn [rstrip]. destruct (rstrip s) as [|b r].
  - cbn [filter] in *. rewrite <- IH.
    destruct (isspace a) eqn:Ha.
    + now rewrite (space_not_alnum _ Ha).
    + reflexivity.
  - cbn [filter] in *. now rewrite IH.
Qed.

Lemma alnum_of_squeeze in_run s :
  filter (fun c => is_az c || is_09 c)%bool (squeeze in_run s)
  = filter (fun c => is_az c || is_09 c)%bool s.
Proof.
  revert in_run. induction s as [|a s IH]; intros in_run; [reflexivity|].
  cbn [squeeze]. destruct (isspace a) eqn:Ha.
  - cbn [filter]. rewrite (space_not_alnum _ Ha).
    destruct in_run; [apply IH|].
    cbn [filter]. rewrite (space_not_alnum _ isspace_space). apply IH.
  - cbn [filter]. now rewrite IH.
Qed.

Lemma alnum_of_drop_other s :
  filter (fun c => is_az c || is_09 c)%bool (drop_other s)
  = filter (fun c => is_az c || is_09 c)%bool s.
Proof.
  unfold drop_other. induction s as [|a s IH]; [reflexivity|].
  cbn [filter].
  destruct (is_az a || is_09 a)%bool eqn:Ha.
  - cbn [orb filter]. now rewrite Ha, IH.
  - cbn [orb]. destruct (isspace a); [|exact IH].
    cbn [filter]. now rewrite Ha.
Qed.

(** X23. [clean_text] neither drops, adds nor reorders a lowercase letter
    or digit: the letters a-z and digits of its result are, in order,
    those of the lower-cased text. Only white space and other characters
    are removed or merged. *)
Theorem clean_text_keeps_letters_and_digits :
  forall (lower : str -> str) (text : str),
    text <> [] ->
    filter (fun c => is_az c || is_09 c)%bool (clean_text lower text)
    = filter (fun c => is_az c || is_09 c)%bool (lower text).
Proof.
  intros lower [|a text] Hne; [congruence|].
  unfold clean_text, strip.
  now rewrite alnum_of_rstrip, alnum_of_lstrip, alnum_of_squeeze, alnum_of_drop_other.
Qed.

Lemma clean_text_keeps_letters_and_digits_witness :
  filter (fun c => is_az c || is_09 c)%bool
    (clean_text ascii_lower (lit "  Hello,   World!! 42  "))
  = filter (fun c => is_az c || is_09 c)%bool
      (ascii_lower (lit "  Hello,   World!! 42  ")).
Proof.
  apply (@clean_text_keeps_letters_and_digits ascii_lower
           (lit "  Hello,   World!! 42  ")).
  discriminate.
Defined.

(** ** One failing page *)



